(** * Verification of the Well-Bot FER backend bookkeeping core

    Shallow embedding of:
    - [src/fer_status_tracker.py]: the module-level request/result ring logs
      ([deque(maxlen=100)]) with [log_request], [log_result],
      [read_recent_requests], [read_recent_results], [clear_requests],
      [clear_results];
    - [src/status_tracker.py]: the [StatusTracker] class;
    - [src/main.py]: the [detect_emotion] handler, as far as it threads the
      tracker state and the persistence call;
    - the aggregation buffer of the spec, of which the repository only has
      its callers (modelled from the spec below). *)

From Stdlib Require Import QArith Ascii Sorted.
From stdpp Require Import base gmap strings list.

Open Scope string_scope.

(* ------------------------------------------------------------------ *)
(** ** Python values used by the code *)

(** Exceptions that the modelled code can raise. *)
Inductive exn :=
| KeyError
| ValueError
| TypeError
| HTTPException (status_code : Z)
| DBError
| OverflowError
| CvError.

(** Outcome of a Python statement sequence: a value or a raised exception. *)
Inductive result (A : Type) :=
| Ok (a : A)
| Raise (e : exn).
Arguments Ok {A} a.
Arguments Raise {A} e.

(** State passing with exceptions; an exception does not roll back the
    state mutated before it, as in Python. *)
Definition M (S A : Type) := S -> result A * S.

Definition ret {S A} (a : A) : M S A := fun s => (Ok a, s).
Definition throw {S A} (e : exn) : M S A := fun s => (Raise e, s).
Definition bind {S A B} (m : M S A) (k : A -> M S B) : M S B :=
  fun s => match m s with
           | (Ok a, s') => k a s'
           | (Raise e, s') => (Raise e, s')
           end.
Notation "'let*' x := m 'in' k" := (bind m (fun x => k))
  (at level 200, x name, m at level 100, k at level 200).

(** [try: body except h: handler] *)
Definition py_try {S A} (body : M S A) (handler : exn -> M S A) : M S A :=
  fun s => match body s with
           | (Ok a, s') => (Ok a, s')
           | (Raise e, s') => handler e s'
           end.

(** Truthiness of an [Optional[str]]: [None] and [""] are falsy. *)
Definition str_truthy (s : option string) : bool :=
  match s with
  | None => false
  | Some "" => false
  | Some _ => true
  end.

(** [filename or "image.jpg"] *)
Definition or_default (s : option string) (d : string) : string :=
  match s with
  | Some x => if str_truthy (Some x) then x else d
  | None => d
  end.

(** [l[:stop]] for an integer [stop] (negative stops count from the end). *)
Definition py_slice_to {A} (l : list A) (stop : Z) : list A :=
  if (0 <=? stop)%Z then firstn (Z.to_nat stop) l
  else firstn (length l - Z.to_nat (- stop)) l.

(** [l[-k:]] for an integer [k]; [l[-0:]] is the whole list. *)
Definition py_slice_last {A} (l : list A) (k : Z) : list A :=
  if (0 <? k)%Z then skipn (length l - Z.to_nat k) l
  else if (k =? 0)%Z then l
  else skipn (Z.to_nat (- k)) l.

(* ------------------------------------------------------------------ *)
(** ** [collections.deque] with a [maxlen] *)

Record deque (A : Type) := mk_deque { maxlen : nat; items : list A }.
Arguments mk_deque {A} maxlen items.
Arguments maxlen {A} d.
Arguments items {A} d.

(** [deque(maxlen=n)] *)
Definition deque_new {A} (n : nat) : deque A := mk_deque n [].

(** [d.append(x)] as CPython does it: with [maxlen == 0] nothing is
    stored; otherwise [x] is appended and, when the deque then exceeds
    [maxlen], the leftmost (oldest) element is popped. *)
Definition deque_append {A} (d : deque A) (x : A) : deque A :=
  match maxlen d with
  | 0 => d
  | _ =>
    let l := (items d ++ [x])%list in
    if Nat.ltb (maxlen d) (length l) then mk_deque (maxlen d) (tail l)
    else mk_deque (maxlen d) l
  end.

(** [d.clear()] *)
Definition deque_clear {A} (d : deque A) : deque A := mk_deque (maxlen d) [].

(** [list(d)] *)
Definition deque_list {A} (d : deque A) : list A := items d.

(* ------------------------------------------------------------------ *)
(** ** Log entries (the dicts built by the trackers) *)

Record request_entry := {
  rq_user_id : string;
  rq_timestamp : string;
  rq_filename : string;
  rq_status : string
}.

Record result_entry := {
  rs_user_id : string;
  rs_timestamp : string;
  rs_filename : string;
  rs_emotion : string;
  rs_emotion_confidence : Q;
  rs_db_write_success : bool;
  rs_status : string
}.

(** [if user_id: all_entries = [e for e in all_entries
    if e.get("user_id") == user_id]] *)
Definition user_filter {E} (uid : E -> string) (user_id : option string)
    (l : list E) : list E :=
  match user_id with
  | Some u => if str_truthy user_id then List.filter (fun e => String.eqb (uid e) u) l
              else l
  | None => l
  end.

(* ------------------------------------------------------------------ *)
(** ** [src/fer_status_tracker.py] *)

Module FerStatusTracker.

(** The two module-level deques [_recent_requests] and [_recent_results]. *)
Record state := {
  recent_requests : deque request_entry;
  recent_results : deque result_entry
}.

(** Module import: [deque(maxlen=100)] twice. *)
Definition init : state :=
  {| recent_requests := deque_new 100; recent_results := deque_new 100 |}.

Definition set_requests (d : deque request_entry) (st : state) : state :=
  {| recent_requests := d; recent_results := recent_results st |}.
Definition set_results (d : deque result_entry) (st : state) : state :=
  {| recent_requests := recent_requests st; recent_results := d |}.

(** The [log_entry] dict built by [log_request]. *)
Definition request_log_entry (user_id timestamp : string)
    (filename : option string) : request_entry :=
  {| rq_user_id := user_id;
     rq_timestamp := timestamp;
     rq_filename := or_default filename "image.jpg";
     rq_status := "received" |}.

(** The [log_entry] dict built by [log_result]. *)
Definition result_log_entry (user_id timestamp emotion : string)
    (confidence : Q) (db_write_success : bool) (filename : option string)
    : result_entry :=
  {| rs_user_id := user_id;
     rs_timestamp := timestamp;
     rs_filename := or_default filename "image.jpg";
     rs_emotion := emotion;
     rs_emotion_confidence := confidence;
     rs_db_write_success := db_write_success;
     rs_status := "completed" |}.

Definition log_request (user_id timestamp : string) (filename : option string)
    : M state unit :=
  py_try
    (fun st =>
       let log_entry := request_log_entry user_id timestamp filename in
       (Ok tt, set_requests (deque_append (recent_requests st) log_entry) st))
    (fun _ => ret tt).

Definition log_result (user_id timestamp emotion : string) (confidence : Q)
    (db_write_success : bool) (filename : option string) : M state unit :=
  py_try
    (fun st =>
       let log_entry :=
         result_log_entry user_id timestamp emotion confidence
           db_write_success filename in
       (Ok tt, set_results (deque_append (recent_results st) log_entry) st))
    (fun _ => ret tt).

Definition read_recent_requests (limit : Z) (user_id : option string)
    : M state (list request_entry) :=
  py_try
    (fun st =>
       let all_entries := rev (deque_list (recent_requests st)) in
       let all_entries := user_filter rq_user_id user_id all_entries in
       (Ok (py_slice_to all_entries limit), st))
    (fun _ => ret []).

Definition read_recent_results (limit : Z) (user_id : option string)
    : M state (list result_entry) :=
  py_try
    (fun st =>
       let all_entries := rev (deque_list (recent_results st)) in
       let all_entries := user_filter rs_user_id user_id all_entries in
       (Ok (py_slice_to all_entries limit), st))
    (fun _ => ret []).

Definition get_request_count : M state nat :=
  fun st => (Ok (length (items (recent_requests st))), st).
Definition get_result_count : M state nat :=
  fun st => (Ok (length (items (recent_results st))), st).

Definition clear_requests : M state unit :=
  fun st => (Ok tt, set_requests (deque_clear (recent_requests st)) st).
Definition clear_results : M state unit :=
  fun st => (Ok tt, set_results (deque_clear (recent_results st)) st).

(** The calls the rest of the program makes on this module. *)
Inductive op :=
| OpLogRequest (user_id timestamp : string) (filename : option string)
| OpLogResult (user_id timestamp emotion : string) (confidence : Q)
    (db_write_success : bool) (filename : option string)
| OpReadRequests (limit : Z) (user_id : option string)
| OpReadResults (limit : Z) (user_id : option string)
| OpRequestCount
| OpResultCount
| OpClearRequests
| OpClearResults.

Definition step (o : op) (st : state) : state :=
  match o with
  | OpLogRequest u t f => snd (log_request u t f st)
  | OpLogResult u t e c d f => snd (log_result u t e c d f st)
  | OpReadRequests l u => snd (read_recent_requests l u st)
  | OpReadResults l u => snd (read_recent_results l u st)
  | OpRequestCount => snd (get_request_count st)
  | OpResultCount => snd (get_result_count st)
  | OpClearRequests => snd (clear_requests st)
  | OpClearResults => snd (clear_results st)
  end.

Definition run (ops : list op) (st : state) : state := fold_left (fun s o => step o s) ops st.

(** Arguments of one [log_result] call. *)
Record result_args := {
  a_user_id : string; a_timestamp : string; a_emotion : string;
  a_confidence : Q; a_db_write_success : bool; a_filename : option string
}.

Definition log_result_call (a : result_args) : M state unit :=
  log_result (a_user_id a) (a_timestamp a) (a_emotion a) (a_confidence a)
    (a_db_write_success a) (a_filename a).

Definition entry_of_args (a : result_args) : result_entry :=
  result_log_entry (a_user_id a) (a_timestamp a) (a_emotion a) (a_confidence a)
    (a_db_write_success a) (a_filename a).

(** One [log_result] call per element of [args], in order. *)
Definition log_results (args : list result_args) (st : state) : state :=
  fold_left (fun s a => snd (log_result_call a s)) args st.

End FerStatusTracker.

(* ------------------------------------------------------------------ *)
(** ** [datetime] values *)

(** A [datetime]: an instant in seconds and whether it carries a
    [tzinfo] (aware) or not (naive). *)
Record datetime := { dt_seconds : Z; dt_aware : bool }.

(** [a >= b]: Python refuses to order a naive and an aware datetime. *)
Definition dt_ge (a b : datetime) : result bool :=
  if Bool.eqb (dt_aware a) (dt_aware b) then Ok (dt_seconds b <=? dt_seconds a)%Z
  else Raise TypeError.

(** The arithmetic of [now - timedelta(minutes=m)], before the range
    check of [sub_minutes] below. *)
Definition minus_minutes (now : datetime) (m : Z) : datetime :=
  {| dt_seconds := dt_seconds now - 60 * m; dt_aware := dt_aware now |}.

(** [datetime.min] and [datetime.max] (years 1 and 9999) as seconds from
    the Unix epoch of a UTC datetime, fractions of a second dropped. *)
Definition datetime_min_seconds : Z := -62135596800.
Definition datetime_max_seconds : Z := 253402300799.

Definition in_datetime_range (s : Z) : bool :=
  (datetime_min_seconds <=? s)%Z && (s <=? datetime_max_seconds)%Z.

(** [now - timedelta(minutes=m)] for a UTC [now]: [OverflowError] when the
    result leaves datetime's range (a [timedelta] too large to build is
    also an [OverflowError], and its result would be out of range too). *)
Definition sub_minutes (now : datetime) (m : Z) : result datetime :=
  let d := minus_minutes now m in
  if in_datetime_range (dt_seconds d) then Ok d else Raise OverflowError.

(** [s.replace('Z', '+00:00')] *)
Fixpoint replace_Z (s : string) : string :=
  match s with
  | EmptyString => EmptyString
  | String c r =>
    if Ascii.eqb c "Z"%char then ("+00:00" ++ replace_Z r)%string
    else String c (replace_Z r)
  end.

(* ------------------------------------------------------------------ *)
(** ** [src/status_tracker.py]: class [StatusTracker] *)

Module StatusTracker.

Record result_entry := {
  sr_user_id : string;
  sr_timestamp : string;
  sr_emotion : string;
  sr_emotion_confidence : Q;
  sr_db_write_success : bool;
  sr_aggregation_complete : bool;
  sr_status : string
}.

(** The instance attributes [recent_requests] and [recent_results]. *)
Record state := {
  recent_requests : deque request_entry;
  recent_results : deque result_entry
}.

(** [StatusTracker(max_recent_requests, max_recent_results)] *)
Definition new (max_recent_requests max_recent_results : nat) : state :=
  {| recent_requests := deque_new max_recent_requests;
     recent_results := deque_new max_recent_results |}.

Section WithDatetime.

(** [datetime.isoformat] and [datetime.fromisoformat] ([None] where the
    latter raises [ValueError]). *)
Variable isoformat : datetime -> string.
Variable fromisoformat : string -> option datetime.

Definition log_request (user_id : string) (timestamp : datetime)
    (filename : option string) : M state unit :=
  fun st =>
    (Ok tt,
     {| recent_requests :=
          deque_append (recent_requests st)
            {| rq_user_id := user_id;
               rq_timestamp := isoformat timestamp;
               rq_filename := or_default filename "image.jpg";
               rq_status := "received" |};
        recent_results := recent_results st |}).

Definition log_result (user_id : string) (timestamp : datetime)
    (emotion : string) (confidence : Q) (db_write_success : bool)
    (aggregation_complete : bool) : M state unit :=
  fun st =>
    (Ok tt,
     {| recent_requests := recent_requests st;
        recent_results :=
          deque_append (recent_results st)
            {| sr_user_id := user_id;
               sr_timestamp := isoformat timestamp;
               sr_emotion := emotion;
               sr_emotion_confidence := confidence;
               sr_db_write_success := db_write_success;
               sr_aggregation_complete := aggregation_complete;
               sr_status := "completed" |} |}).

(** Outcome of one iteration of the loop of [get_recent_requests]. *)
Inductive ctl := Continue (recent : list request_entry) | Break (recent : list request_entry).

(** The [try] block of one iteration. *)
Definition iteration (cutoff_time : datetime) (limit : Z)
    (req : request_entry) (recent : list request_entry) : result ctl :=
  match fromisoformat (replace_Z (rq_timestamp req)) with
  | None => Raise ValueError
  | Some req_time =>
    match dt_ge req_time cutoff_time with
    | Raise e => Raise e
    | Ok true =>
      let recent := (recent ++ [req])%list in
      if (limit <=? Z.of_nat (length recent))%Z then Ok (Break recent)
      else Ok (Continue recent)
    | Ok false => Ok (Continue recent)
    end
  end.

(** [for req in ...: try: ... except Exception: continue] *)
Fixpoint requests_loop (cutoff_time : datetime) (limit : Z)
    (reqs : list request_entry) (recent : list request_entry)
    : list request_entry :=
  match reqs with
  | [] => recent
  | req :: rest =>
    match iteration cutoff_time limit req recent with
    | Ok (Break r) => r
    | Ok (Continue r) => requests_loop cutoff_time limit rest r
    | Raise _ => requests_loop cutoff_time limit rest recent
    end
  end.

(** [get_recent_requests(limit, minutes)]; [now] is the value of
    [datetime.now(timezone.utc)] at the call. *)
Definition get_recent_requests (now : datetime) (limit minutes : Z)
    : M state (list request_entry) :=
  fun st =>
    match sub_minutes now minutes with
    | Raise e => (Raise e, st)
    | Ok cutoff_time =>
      (Ok (requests_loop cutoff_time limit (rev (deque_list (recent_requests st))) []), st)
    end.

End WithDatetime.

(** [list(reversed(list(self.recent_results)[-limit:]))] *)
Definition get_recent_results (limit : Z) : M state (list result_entry) :=
  fun st => (Ok (rev (py_slice_last (deque_list (recent_results st)) limit)), st).

End StatusTracker.

(* ------------------------------------------------------------------ *)
(** ** The aggregation buffer *)

Module AggregationBuffer.

(** Modelled from the spec: the per-identity aggregation buffer
    ([AggregationBuffer.Ingest], spec sections 3 and 4.1). The repository
    refers to it (the test runner fixes one user id "so aggregation works",
    [StatusTracker.log_result] takes [aggregation_complete]) but its code is
    not among the sources. Times are in seconds, confidences rationals. *)
Record observation := {
  obs_timestamp : Z;
  obs_label : string;
  obs_confidence : Q
}.

(** Modelled from the spec: [AggregatedResult]. *)
Record aggregated := {
  agg_identity : string;
  agg_label : string;
  agg_confidence : Q;
  agg_count : nat
}.

(** Modelled from the spec: the windows, one per identity. *)
Definition buffer := gmap string (list observation).

(** Modelled from the spec: the identity's window (absent means empty). *)
Definition window (b : gmap string (list observation)) (identity : string)
    : list observation :=
  default [] (b !! identity).

(** Modelled from the spec: [window.start = first_observation.timestamp]. *)
Definition window_start (w : list observation) (now : Z) : Z :=
  match w with
  | o :: _ => obs_timestamp o
  | [] => now
  end.

(** Modelled from the spec: candidates are the observations whose label is
    not the sentinel ["none"]. *)
Definition candidates (w : list observation) : list observation :=
  List.filter (fun o => negb (String.eqb (obs_label o) "none")) w.

(** Modelled from the spec: stable max-confidence scan, a later observation
    replaces the best so far only when strictly more confident. *)
Definition best (b o : observation) : observation :=
  if Qlt_le_dec (obs_confidence b) (obs_confidence o) then o else b.

(** Modelled from the spec: winner selection, with [("none", 0.0)] when
    there is no candidate. *)
Definition select_winner (w : list observation) : string * Q :=
  match candidates w with
  | [] => ("none", 0%Q)
  | c :: cs => let o := fold_left best cs c in (obs_label o, obs_confidence o)
  end.

(** Modelled from the spec: [Ingest(identity, label, confidence, now)]. *)
Definition ingest (duration : Z) (identity label : string) (confidence : Q)
    (now : Z) (b : gmap string (list observation))
    : option aggregated * gmap string (list observation) :=
  let w := (window b identity ++ [{| obs_timestamp := now; obs_label := label;
                                    obs_confidence := confidence |}])%list in
  let elapsed := (now - window_start w now)%Z in
  if (elapsed <? duration)%Z then (None, <[identity := w]> b)
  else
    let '(lbl, conf) := select_winner w in
    (Some {| agg_identity := identity; agg_label := lbl;
             agg_confidence := conf; agg_count := length w |},
     <[identity := []]> b).

(** Modelled from the spec: one [Ingest] call. *)
Record call := {
  c_identity : string; c_label : string; c_confidence : Q; c_now : Z
}.

(** Modelled from the spec: a sequence of [Ingest] calls, with the results
    returned in order. *)
Fixpoint ingest_all (duration : Z) (calls : list call)
    (b : gmap string (list observation))
    : list (option aggregated) * gmap string (list observation) :=
  match calls with
  | [] => ([], b)
  | c :: cs =>
    let '(r, b') := ingest duration (c_identity c) (c_label c) (c_confidence c)
                      (c_now c) b in
    let '(rs, b'') := ingest_all duration cs b' in
    (r :: rs, b'')
  end.

End AggregationBuffer.

(* ------------------------------------------------------------------ *)
(** ** [src/main.py]: the [/fer/emotion] handler *)

Module Main.

(** [str.lower] on ASCII letters. *)
Definition lower_ascii (c : ascii) : ascii :=
  let n := nat_of_ascii c in
  if Nat.leb 65 n && Nat.leb n 90 then ascii_of_nat (n + 32) else c.

Fixpoint lower (s : string) : string :=
  match s with
  | EmptyString => EmptyString
  | String c r => String (lower_ascii c) (lower r)
  end.

(** [predict_emotion]'s dict [{"emotion": ..., "confidence": ...}]. *)
Record prediction := { emotion : string; confidence : Q }.

(** The [db_record] dict inserted into the [face_emotion] table. *)
Record db_record := {
  d_user_id : string;
  d_timestamp : string;
  d_predicted_emotion : string;
  d_emotion_confidence : Q;
  d_date : string
}.

(** The process state the handler touches: the tracker module and the
    persistence service, seen as the list of attempted inserts and the
    list of rows it stored. *)
Record hstate := {
  tracker : FerStatusTracker.state;
  db_attempts : list db_record;
  db_rows : list db_record
}.

(** Runs a [fer_status_tracker] function on the tracker part of the state. *)
Definition lift {A} (m : M FerStatusTracker.state A) : M hstate A :=
  fun s =>
    let '(r, t) := m (tracker s) in
    (r, {| tracker := t; db_attempts := db_attempts s; db_rows := db_rows s |}).

Section Handler.

(** The collaborators of the handler. *)
Variable image : Type.
(** [str(uuid.UUID(s))], [None] where [uuid.UUID] raises [ValueError]. *)
Variable uuid_of : string -> option string.
(** [os.environ.get("DEV_USER_ID")] *)
Variable dev_user_id : option string.
(** [cv2.imdecode(np.frombuffer(contents, np.uint8), cv2.IMREAD_COLOR)]:
    [None] for bytes it cannot decode; it may also raise ([cv2.error], as
    on an empty buffer). *)
Variable imdecode : list Byte.byte -> result (option image).
(** [fer_model.predict_emotion], which may raise. *)
Variable predict_emotion : image -> result prediction.
(** Whether the module-level [supabase] client is configured. *)
Variable supabase_configured : bool.
(** Outcome of [supabase.table("face_emotion").insert(r).execute()]. *)
Variable insert_outcome : db_record -> result unit.
(** [datetime.datetime.now(datetime.timezone.utc)] at the call, its
    [isoformat()] and its [strftime("%Y-%m-%d")]. *)
Variable now : datetime.
Variable isoformat : datetime -> string.
Variable strftime_date : datetime -> string.

Definition get_validated_uuid (request_id : option string) : option string :=
  let from_request :=
    match request_id with
    | Some r => if str_truthy request_id then uuid_of r else None
    | None => None
    end in
  match from_request with
  | Some v => Some v
  | None =>
    match dev_user_id with
    | Some e => if str_truthy dev_user_id then uuid_of e else None
    | None => None
    end
  end.

(** [supabase.table("face_emotion").insert(db_record).execute()] *)
Definition supabase_insert (r : db_record) : M hstate unit :=
  fun s =>
    let s := {| tracker := tracker s; db_attempts := (db_attempts s ++ [r])%list;
                db_rows := db_rows s |} in
    match insert_outcome r with
    | Ok tt => (Ok tt, {| tracker := tracker s; db_attempts := db_attempts s;
                          db_rows := (db_rows s ++ [r])%list |})
    | Raise e => (Raise e, s)
    end.

(** Step 4, database persistence: yields [db_write_success]. *)
Definition persist (validated_id timestamp : string) (result : prediction)
    : M hstate bool :=
  if negb (String.eqb (lower (emotion result)) "none") && supabase_configured then
    let db_record :=
      {| d_user_id := validated_id; d_timestamp := timestamp;
         d_predicted_emotion := emotion result;
         d_emotion_confidence := confidence result;
         d_date := strftime_date now |} in
    py_try (let* _ := supabase_insert db_record in ret true)
           (fun _ => ret false)
  else ret false.

(** [detect_emotion(file, user_id)]: [filename] and [contents] are those of
    the uploaded file. *)
Definition detect_emotion (filename : option string) (contents : list Byte.byte)
    (user_id : option string) : M hstate prediction :=
  match get_validated_uuid user_id with
  | None => throw (HTTPException 400)
  | Some validated_id =>
    let timestamp := isoformat now in
    let* _ := lift (FerStatusTracker.log_request validated_id timestamp filename) in
    py_try
      (let* decoded := (fun s => (imdecode contents, s)) in
       match decoded with
       | None => throw (HTTPException 400)
       | Some img =>
         let* result := (fun s => (predict_emotion img, s)) in
         let* db_write_success := persist validated_id timestamp result in
         let* _ := lift (FerStatusTracker.log_result validated_id timestamp
                           (emotion result) (confidence result)
                           db_write_success filename) in
         ret result
       end)
      (fun e => match e with
                | HTTPException c => throw (HTTPException c)
                | _ => throw (HTTPException 500)
                end)
  end.

End Handler.

End Main.

(* ------------------------------------------------------------------ *)
(** ** [src/status_tracker.py]: a sequence of calls on one instance *)

Module StatusTrackerRun.
Import StatusTracker.

Inductive op :=
| OpLogRequest (user_id : string) (timestamp : datetime) (filename : option string)
| OpLogResult (user_id : string) (timestamp : datetime) (emotion : string)
    (confidence : Q) (db_write_success aggregation_complete : bool)
| OpGetRecentRequests (now : datetime) (limit minutes : Z)
| OpGetRecentResults (limit : Z).

Section WithDatetime.
Variable isoformat : datetime -> string.
Variable fromisoformat : string -> option datetime.

Definition step (o : op) (st : state) : state :=
  match o with
  | OpLogRequest u t f => snd (log_request isoformat u t f st)
  | OpLogResult u t e c d a => snd (log_result isoformat u t e c d a st)
  | OpGetRecentRequests n l m => snd (get_recent_requests fromisoformat n l m st)
  | OpGetRecentResults l => snd (get_recent_results l st)
  end.

Definition run (ops : list op) (st : state) : state :=
  fold_left (fun s o => step o s) ops st.

End WithDatetime.

End StatusTrackerRun.

(* ------------------------------------------------------------------ *)
(** ** [src/main.py]: the [/fer/status] endpoint *)

Module MainStatus.
Import FerStatusTracker.

(** The dict returned by [get_fer_service_status]. *)
Record status_response := {
  service : string;
  timestamp : string;
  status : string;
  recent_requests_out : list request_entry;
  recent_results_out : list result_entry;
  last_successful_result : option result_entry;
  uptime : string
}.

(** [sorted(key=lambda x: x["timestamp"], reverse=True)]: a stable sort by
    decreasing timestamp string; an entry goes after every entry whose
    timestamp is not smaller, so equal timestamps keep their order. *)
Fixpoint insert_desc (x : request_entry) (l : list request_entry)
    : list request_entry :=
  match l with
  | [] => [x]
  | h :: t =>
    if String.leb (rq_timestamp x) (rq_timestamp h) then h :: insert_desc x t
    else x :: h :: t
  end.

Definition sort_desc (l : list request_entry) : list request_entry :=
  fold_left (fun acc x => insert_desc x acc) l [].

(** The dict built for a request of the last ten minutes. *)
Definition format_request (req : request_entry) : request_entry :=
  {| rq_user_id := rq_user_id req; rq_timestamp := rq_timestamp req;
     rq_filename := rq_filename req; rq_status := "received" |}.

(** The dict built for each result ([result.get] defaults never apply: the
    entries written by [log_result] have every key). *)
Definition format_result (r : result_entry) : result_entry :=
  {| rs_user_id := rs_user_id r; rs_timestamp := rs_timestamp r;
     rs_filename := rs_filename r; rs_emotion := rs_emotion r;
     rs_emotion_confidence := rs_emotion_confidence r;
     rs_db_write_success := rs_db_write_success r; rs_status := "completed" |}.

Section WithDatetime.
Variable isoformat : datetime -> string.
Variable fromisoformat : string -> option datetime.

(** The [try] block for one request of the loop. *)
Definition is_recent (ten_minutes_ago : datetime) (req : request_entry)
    : result bool :=
  match fromisoformat (replace_Z (rq_timestamp req)) with
  | None => Raise ValueError
  | Some req_time => dt_ge req_time ten_minutes_ago
  end.

(** [for req in recent_requests: try: ... except Exception: continue] *)
Fixpoint filter_recent (ten_minutes_ago : datetime) (reqs : list request_entry)
    : list request_entry :=
  match reqs with
  | [] => []
  | req :: rest =>
    match is_recent ten_minutes_ago req with
    | Ok true => format_request req :: filter_recent ten_minutes_ago rest
    | Ok false | Raise _ => filter_recent ten_minutes_ago rest
    end
  end.

Definition error_response (now : datetime) : status_response :=
  {| service := "fer"; timestamp := isoformat now; status := "error";
     recent_requests_out := []; recent_results_out := [];
     last_successful_result := None; uptime := "unknown" |}.

(** [get_fer_service_status()]; [now] is [datetime.now(timezone.utc)], the
    live clock, thousands of years from datetime's bounds, so
    [now - timedelta(minutes=10)] is in range here and is written without
    the check of [sub_minutes]. *)
Definition get_fer_service_status (now : datetime) : M state status_response :=
  py_try
    (let* recent_requests := read_recent_requests 20 None in
     let ten_minutes_ago := minus_minutes now 10 in
     let filtered_requests := filter_recent ten_minutes_ago recent_requests in
     let filtered_requests := py_slice_to (sort_desc filtered_requests) 10 in
     let* recent_results := read_recent_results 20 None in
     let formatted_results := map format_result recent_results in
     let last_successful_result := head formatted_results in
     ret {| service := "fer"; timestamp := isoformat now; status := "healthy";
            recent_requests_out := filtered_requests;
            recent_results_out := py_slice_to formatted_results 10;
            last_successful_result := last_successful_result;
            uptime := "unknown" |})
    (fun _ => ret (error_response now)).

End WithDatetime.

End MainStatus.

(* ------------------------------------------------------------------ *)
(** ** [src/fer_model.py] *)

Module FerModel.

(** One detection box: its confidence and class id. *)
Record box := { conf : Q; cls : Z }.

(** [emotion_classes.get(idx, "unknown")] *)
Definition emotion_class (i : Z) : string :=
  if (i =? 0)%Z then "angry"
  else if (i =? 1)%Z then "fear"
  else if (i =? 2)%Z then "happy"
  else if (i =? 3)%Z then "neutral"
  else if (i =? 4)%Z then "sad"
  else "unknown".

(** [np.argmax]: the index of the first maximal element. *)
Fixpoint argmax_go (l : list Q) (i best : nat) (bv : Q) : nat :=
  match l with
  | [] => best
  | x :: r =>
    if Qlt_le_dec bv x then argmax_go r (S i) i x else argmax_go r (S i) best bv
  end.

Definition argmax (l : list Q) : nat :=
  match l with
  | [] => 0
  | x :: r => argmax_go r 1 0 x
  end.

Definition annotated_path : string := "face_data/annotated/latest_detected.jpg".

Section Predict.

Variable image : Type.
(** [len(image.shape) == 2 or image.shape[2] == 1] *)
Variable single_channel : image -> bool.
(** [cv2.cvtColor(image, cv2.COLOR_GRAY2BGR)] *)
Variable gray2bgr : image -> image.
(** [model(image)]: one entry per result, [None] where [result.boxes] is. *)
Variable model : image -> list (option (list box)).
(** [round(x, 2)] *)
Variable round2 : Q -> Q.

Definition none_prediction : Main.prediction :=
  {| Main.emotion := "none"; Main.confidence := 0 |}.

(** [predict_emotion(image)]; the state is the list of files written. *)
Definition predict_emotion (img : image) : M (list string) Main.prediction :=
  let img := if single_channel img then gray2bgr img else img in
  match model img with
  | [] => ret none_prediction
  | None :: _ => ret none_prediction
  | Some [] :: _ => ret none_prediction
  | Some boxes :: _ =>
    let confs := map conf boxes in
    let best_idx := argmax confs in
    let cls_ids := map cls boxes in
    let emotion_idx := nth best_idx cls_ids 0%Z in
    let confidence := round2 (nth best_idx confs 0%Q) in
    let emotion := emotion_class emotion_idx in
    fun files =>
      (Ok {| Main.emotion := emotion; Main.confidence := confidence |},
       (files ++ [annotated_path])%list)
  end.

End Predict.

End FerModel.

(* ================================================================== *)
(** * Proofs *)

Open Scope list_scope.

(* ------------------------------------------------------------------ *)
(** ** The bounded deque *)

Module DequeFacts.

(** The last [k] elements of a list. *)
Definition lastn {A} (k : nat) (l : list A) : list A := skipn (length l - k) l.

Lemma length_lastn {A} k (l : list A) : length (lastn k l) <= k.
Proof. unfold lastn. rewrite length_skipn. lia. Qed.

Lemma lastn_short {A} k (l : list A) : length l <= k -> lastn k l = l.
Proof. intros H. unfold lastn. replace (length l - k) with 0 by lia. reflexivity. Qed.

Lemma tail_skipn_1 {A} (l : list A) : tail l = skipn 1 l.
Proof. destruct l; reflexivity. Qed.

Lemma deque_append_maxlen {A} (d : deque A) x :
  maxlen (deque_append d x) = maxlen d.
Proof.
  unfold deque_append. destruct (maxlen d) eqn:E; [exact E|].
  destruct (Nat.ltb _ _); reflexivity.
Qed.

Lemma deque_append_items {A} (d : deque A) x :
  0 < maxlen d -> length (items d) <= maxlen d ->
  items (deque_append d x) = lastn (maxlen d) (items d ++ [x]).
Proof.
  intros Hpos Hle. unfold deque_append, lastn.
  destruct (maxlen d) as [|k]; [lia|].
  pose proof (length_app (items d) [x]) as Hl; simpl in Hl.
  destruct (Nat.ltb_spec (S k) (length (items d ++ [x]))) as [Hlt|Hge]; simpl.
  - rewrite tail_skipn_1. f_equal. lia.
  - replace (length (items d ++ [x]) - S k) with 0 by lia. reflexivity.
Qed.

Lemma deque_append_length {A} (d : deque A) x :
  length (items d) <= maxlen d -> length (items (deque_append d x)) <= maxlen d.
Proof.
  intros Hle. destruct (maxlen d) eqn:E.
  - unfold deque_append. rewrite E. simpl. lia.
  - rewrite deque_append_items by lia. rewrite E. apply length_lastn.
Qed.

Lemma deque_append_last {A} (d : deque A) x :
  0 < maxlen d -> last (items (deque_append d x)) = Some x.
Proof.
  intros Hpos. unfold deque_append.
  destruct (maxlen d) as [|k]; [lia|].
  destruct (Nat.ltb_spec (S k) (length (items d ++ [x]))) as [Hlt|Hge]; simpl.
  - destruct (items d) as [|y ys] eqn:E; simpl in *; [lia|].
    apply last_snoc.
  - apply last_snoc.
Qed.

Lemma lastn_snoc_lastn {A} k (l : list A) x :
  0 < k -> lastn k (lastn k l ++ [x]) = lastn k (l ++ [x]).
Proof.
  intros Hk. destruct (Nat.le_gt_cases (length l) k) as [Hle|Hgt].
  - rewrite (lastn_short k l Hle). reflexivity.
  - unfold lastn at 2.
    assert (Hs : skipn (length l - k) l ++ [x] = skipn (length l - k) (l ++ [x])).
    { rewrite skipn_app. replace (length l - k - length l) with 0 by lia.
      reflexivity. }
    rewrite Hs. unfold lastn. rewrite skipn_skipn.
    rewrite !length_skipn, !length_app. simpl. f_equal. lia.
Qed.

(** Appending a sequence to a deque of capacity [k] keeps the last [k]
    elements of everything appended so far. *)
Lemma fold_append_lastn {A} k (xs : list A) : forall (d : deque A) (l : list A),
  maxlen d = k -> 0 < k -> items d = lastn k l ->
  maxlen (fold_left deque_append xs d) = k /\
  items (fold_left deque_append xs d) = lastn k (l ++ xs).
Proof.
  induction xs as [|x xs IH]; intros d l Hm Hk Hi; simpl.
  - rewrite app_nil_r. auto.
  - destruct (IH (deque_append d x) (l ++ [x])) as [H1 H2].
    + rewrite deque_append_maxlen. exact Hm.
    + exact Hk.
    + rewrite deque_append_items by (rewrite ?Hi, ?Hm; auto using length_lastn).
      rewrite Hm, Hi. apply lastn_snoc_lastn. exact Hk.
    + rewrite <- app_assoc in H2. auto.
Qed.

End DequeFacts.

(* ------------------------------------------------------------------ *)
(** ** [fer_status_tracker]: ring logs *)

Module FerStatusTrackerProofs.
Import FerStatusTracker DequeFacts.

(** Both logs keep their capacity of 100 and never exceed it. *)
Definition inv (st : state) : Prop :=
  maxlen (recent_requests st) = 100 /\ length (items (recent_requests st)) <= 100 /\
  maxlen (recent_results st) = 100 /\ length (items (recent_results st)) <= 100.

Ltac unfold_ops :=
  unfold step, log_request, log_result, read_recent_requests,
    read_recent_results, get_request_count, get_result_count,
    clear_requests, clear_results, py_try, set_requests, set_results in *;
  simpl in *.

Lemma inv_init : inv init.
Proof. unfold inv, init, deque_new. simpl. lia. Qed.

Lemma inv_step o st : inv st -> inv (step o st).
Proof.
  unfold inv. intros (H1 & H2 & H3 & H4).
  destruct o; unfold_ops; repeat split; auto; try lia;
    rewrite ?deque_append_maxlen; auto.
  - rewrite <- H1. apply deque_append_length. lia.
  - rewrite <- H3. apply deque_append_length. lia.
Qed.

Lemma inv_run ops : forall st, inv st -> inv (run ops st).
Proof.
  induction ops as [|o ops IH]; intros st H; simpl; [exact H|].
  apply IH. apply inv_step. exact H.
Qed.

(** The results deque after a run of [log_result] calls. *)
Lemma log_results_deque args : forall st,
  recent_results (log_results args st) =
  fold_left deque_append (map entry_of_args args) (recent_results st).
Proof.
  induction args as [|a args IH]; intros st; [reflexivity|].
  simpl. unfold log_results in *. simpl. rewrite IH. reflexivity.
Qed.

Lemma user_filter_None {E} (uid : E -> string) l : user_filter uid None l = l.
Proof. reflexivity. Qed.

Lemma py_slice_to_all {A} (l : list A) (stop : Z) :
  (Z.of_nat (length l) <= stop)%Z -> py_slice_to l stop = l.
Proof.
  intros H. unfold py_slice_to.
  destruct (Z.leb_spec 0 stop); [|lia].
  apply firstn_all2. lia.
Qed.

(** ** Claim C2 *)

(** C2: after any sequence of calls of the tracker module ([log_request],
    [log_result], the reads, the counts, [clear_requests], [clear_results])
    from its initial state, each of the two logs holds at most 100 entries,
    and so both together at most 200. *)
Theorem fer_logs_bounded (ops : list op) :
  length (items (recent_requests (run ops init))) <= 100 /\
  length (items (recent_results (run ops init))) <= 100 /\
  length (items (recent_requests (run ops init))) +
  length (items (recent_results (run ops init))) <= 200.
Proof.
  destruct (inv_run ops init inv_init) as (_ & H2 & _ & H4). lia.
Qed.

(** ** Claim C3 *)

(** C3: from an empty result log of capacity 100, [N > 100] calls of
    [log_result] leave exactly the entries of the last 100 calls, in call
    order (the first [N - 100] are evicted), and
    [read_recent_results(limit=N)] returns exactly those 100 entries, the
    newest first. *)
Theorem log_results_ring_bound (args : list result_args) (st : state) :
  100 < length args ->
  recent_results st = deque_new 100 ->
  items (recent_results (log_results args st)) =
    skipn (length args - 100) (map entry_of_args args) /\
  read_recent_results (Z.of_nat (length args)) None (log_results args st) =
    (Ok (rev (skipn (length args - 100) (map entry_of_args args))),
     log_results args st) /\
  length (rev (skipn (length args - 100) (map entry_of_args args))) = 100.
Proof.
  intros HN Hempty.
  destruct (fold_append_lastn 100 (map entry_of_args args)
              (recent_results st) [] ltac:(rewrite Hempty; reflexivity)
              ltac:(lia) ltac:(rewrite Hempty; reflexivity)) as [_ Hitems].
  rewrite <- log_results_deque in Hitems. simpl in Hitems.
  unfold lastn in Hitems. rewrite length_map in Hitems.
  assert (Hlen : length (rev (skipn (length args - 100) (map entry_of_args args))) = 100).
  { rewrite length_rev, length_skipn, length_map. lia. }
  split; [exact Hitems|]. split; [|exact Hlen].
  unfold read_recent_results, py_try, deque_list. cbv beta iota zeta.
  rewrite Hitems, user_filter_None, py_slice_to_all; [reflexivity|].
  rewrite Hlen. lia.
Qed.

(** Arguments of a [log_result] call, used to run the code. *)
Definition sample_args : result_args :=
  {| a_user_id := "11111111-1111-1111-1111-111111111111";
     a_timestamp := "2026-10-18T12:00:00+00:00"; a_emotion := "happy";
     a_confidence := 9 # 10; a_db_write_success := true;
     a_filename := Some "face.jpg" |}.

Lemma log_results_ring_bound_witness :
  let args := repeat sample_args 101 in
  items (recent_results (log_results args init)) =
    skipn (length args - 100) (map entry_of_args args) /\
  read_recent_results (Z.of_nat (length args)) None (log_results args init) =
    (Ok (rev (skipn (length args - 100) (map entry_of_args args))),
     log_results args init) /\
  length (rev (skipn (length args - 100) (map entry_of_args args))) = 100.
Proof.
  apply (log_results_ring_bound (repeat sample_args 101) init).
  - simpl. lia.
  - reflexivity.
Defined.

(** ** Claim C7 *)

(** C7: [log_request], [log_result], [read_recent_requests] and
    [read_recent_results] complete normally on every input: the body of
    each [try] never reaches its [except] handler, appends do nothing but
    the bounded deque append, and the reads return the filtered, sliced
    newest-first snapshot without changing the state. *)
Theorem fer_tracker_ops_total (st : state) (user_id timestamp emotion : string)
    (filename : option string) (confidence : Q) (db_write_success : bool)
    (limit : Z) (user_filter_id : option string) :
  log_request user_id timestamp filename st =
    (Ok tt, set_requests (deque_append (recent_requests st)
                            (request_log_entry user_id timestamp filename)) st) /\
  log_result user_id timestamp emotion confidence db_write_success filename st =
    (Ok tt, set_results (deque_append (recent_results st)
                           (result_log_entry user_id timestamp emotion confidence
                              db_write_success filename)) st) /\
  read_recent_requests limit user_filter_id st =
    (Ok (py_slice_to (user_filter rq_user_id user_filter_id
                        (rev (deque_list (recent_requests st)))) limit), st) /\
  read_recent_results limit user_filter_id st =
    (Ok (py_slice_to (user_filter rs_user_id user_filter_id
                        (rev (deque_list (recent_results st)))) limit), st).
Proof. repeat split. Qed.

(** ** Claim C8 *)

(** Which log a call of the module works on. *)
Inductive side := RequestsSide | ResultsSide.

Definition op_side (o : op) : side :=
  match o with
  | OpLogRequest _ _ _ | OpReadRequests _ _ | OpRequestCount | OpClearRequests =>
    RequestsSide
  | OpLogResult _ _ _ _ _ _ | OpReadResults _ _ | OpResultCount | OpClearResults =>
    ResultsSide
  end.

(** C8: the request log and the result log share no state: every call on
    the request log ([log_request], [read_recent_requests],
    [get_request_count], [clear_requests]) leaves the result log and every
    [read_recent_results] answer unchanged, and every call on the result
    log leaves the request log and every [read_recent_requests] answer
    unchanged. *)
Theorem fer_logs_independent (o : op) (st : state) :
  match op_side o with
  | RequestsSide =>
    recent_results (step o st) = recent_results st /\
    forall limit user_id,
      fst (read_recent_results limit user_id (step o st)) =
      fst (read_recent_results limit user_id st)
  | ResultsSide =>
    recent_requests (step o st) = recent_requests st /\
    forall limit user_id,
      fst (read_recent_requests limit user_id (step o st)) =
      fst (read_recent_requests limit user_id st)
  end.
Proof. destruct o; unfold_ops; split; reflexivity. Qed.

(** ** Claim C10 *)

(** C10: the entry [log_request] stores (in [fer_status_tracker], from any
    reachable state, and in a [StatusTracker] of nonzero capacity) has the
    filename ["image.jpg"] when the supplied filename is [None] or [""],
    and the supplied filename unchanged otherwise. *)
Theorem log_request_filename_default (ops : list op)
    (user_id timestamp : string) (filename : option string) :
  option_map rq_filename
    (last (items (recent_requests
                    (snd (log_request user_id timestamp filename (run ops init)))))) =
  Some (match filename with
        | None => "image.jpg"
        | Some f => if String.eqb f "" then "image.jpg" else f
        end) /\
  forall isoformat (sst : StatusTracker.state) (ts : datetime),
    0 < maxlen (StatusTracker.recent_requests sst) ->
    option_map rq_filename
      (last (items (StatusTracker.recent_requests
                      (snd (StatusTracker.log_request isoformat user_id ts filename sst))))) =
    Some (match filename with
          | None => "image.jpg"
          | Some f => if String.eqb f "" then "image.jpg" else f
          end).
Proof.
  assert (Hor : or_default filename "image.jpg" =
                match filename with
                | None => "image.jpg"
                | Some f => if String.eqb f "" then "image.jpg" else f
                end).
  { destruct filename as [f|]; [|reflexivity].
    destruct f; reflexivity. }
  split.
  - destruct (inv_run ops init inv_init) as (H1 & _).
    unfold log_request, py_try, set_requests. simpl.
    rewrite deque_append_last by lia. simpl. rewrite Hor. reflexivity.
  - intros iso sst ts Hpos. unfold StatusTracker.log_request. simpl.
    rewrite deque_append_last by exact Hpos. simpl. rewrite Hor. reflexivity.
Qed.

End FerStatusTrackerProofs.

(* ------------------------------------------------------------------ *)
(** ** [StatusTracker.get_recent_requests] *)

Module StatusTrackerProofs.
Import StatusTracker.

Section Loop.

Variable fromisoformat : string -> option datetime.

(** Whether [datetime.fromisoformat] accepts the stored timestamp (after
    the ['Z'] replacement the code performs). *)
Definition parseable (r : request_entry) : bool :=
  match fromisoformat (replace_Z (rq_timestamp r)) with
  | Some _ => true
  | None => false
  end.

Lemma iteration_unparseable c limit r acc :
  parseable r = false -> iteration fromisoformat c limit r acc = Raise ValueError.
Proof.
  unfold parseable, iteration. destruct (fromisoformat _); [discriminate|reflexivity].
Qed.

(** An entry that does not parse leaves the loop's accumulator as it is. *)
Lemma requests_loop_filter c limit reqs : forall acc,
  requests_loop fromisoformat c limit (List.filter parseable reqs) acc =
  requests_loop fromisoformat c limit reqs acc.
Proof.
  induction reqs as [|r reqs IH]; intros acc; [reflexivity|].
  simpl. destruct (parseable r) eqn:Hp.
  - simpl. destruct (iteration _ _ _ _ _) as [[r'|r']|e]; auto.
  - rewrite iteration_unparseable by exact Hp. apply IH.
Qed.

Lemma requests_loop_in c limit reqs : forall acc x,
  In x (requests_loop fromisoformat c limit reqs acc) ->
  In x acc \/ (In x reqs /\ parseable x = true).
Proof.
  induction reqs as [|r reqs IH]; intros acc x Hin; simpl in *; [auto|].
  destruct (iteration fromisoformat c limit r acc) as [[r'|r']|e] eqn:Hit.
  - apply IH in Hin. destruct Hin as [Hin|[Hin Hp]]; [|tauto].
    unfold iteration in Hit. destruct (fromisoformat _) as [t|] eqn:Hf; [|discriminate].
    destruct (dt_ge t c) as [[|]|e]; try discriminate.
    + destruct (_ <=? _)%Z; try discriminate. injection Hit as <-.
      apply in_app_or in Hin. destruct Hin as [Hin|[<-|[]]]; [auto|].
      right. unfold parseable. rewrite Hf. auto.
    + injection Hit as <-. auto.
  - unfold iteration in Hit. destruct (fromisoformat _) as [t|] eqn:Hf; [|discriminate].
    destruct (dt_ge t c) as [[|]|e]; try discriminate.
    destruct (_ <=? _)%Z; try discriminate. injection Hit as <-.
    apply in_app_or in Hin. destruct Hin as [Hin|[<-|[]]]; [auto|].
    right. unfold parseable. rewrite Hf. auto.
  - apply IH in Hin. destruct Hin as [Hin|[Hin Hp]]; auto.
Qed.

(** For a positive [limit] the loop stops at [limit] entries. *)
Lemma requests_loop_length c limit reqs : forall acc,
  (Z.of_nat (length acc) < limit)%Z ->
  (Z.of_nat (length (requests_loop fromisoformat c limit reqs acc)) <= limit)%Z.
Proof.
  induction reqs as [|r reqs IH]; intros acc Hacc; simpl; [lia|].
  unfold iteration. destruct (fromisoformat _) as [t|]; [|auto].
  destruct (dt_ge t c) as [[|]|e]; auto.
  rewrite length_app. simpl.
  destruct (Z.leb_spec limit (Z.of_nat (length acc + 1))) as [H|H].
  - rewrite length_app. simpl. lia.
  - apply IH. rewrite length_app. simpl. lia.
Qed.

End Loop.

(** The sibling reader of [fer_status_tracker] caps its answer with
    [all_entries[:limit]]. *)
Lemma get_recent_requests_limit_pos fromisoformat now limit minutes st :
  (1 <= limit)%Z ->
  (Z.of_nat (length (match fst (get_recent_requests fromisoformat now limit minutes st) with
                     | Ok l => l | Raise _ => [] end)) <= limit)%Z.
Proof.
  intros H. unfold get_recent_requests.
  destruct (sub_minutes now minutes) as [c|e]; simpl; [|lia].
  apply requests_loop_length. simpl. lia.
Qed.

(** The method only reads the tracker, also when it raises. *)
Lemma get_recent_requests_state fromisoformat now limit minutes st :
  snd (get_recent_requests fromisoformat now limit minutes st) = st.
Proof.
  unfold get_recent_requests. destruct (sub_minutes now minutes); reflexivity.
Qed.

(** ** Claim C9 *)

(** C9: [StatusTracker.get_recent_requests] silently omits every entry
    whose stored timestamp [datetime.fromisoformat] rejects: such an entry
    is never returned, and the answer is the one the call gives on the log
    with those entries removed, so they do not count toward [limit]. The
    entries never make the call raise: its one exception is the
    [OverflowError] of [now - timedelta(minutes=minutes)] out of datetime's
    range, decided by [now] and [minutes] alone, and the tracker is left
    as it was. *)
Theorem get_recent_requests_skips_unparseable
    (fromisoformat : string -> option datetime) (now : datetime)
    (limit minutes : Z) (st : state) :
  exists l,
    (forall r, In r l -> parseable fromisoformat r = true) /\
    get_recent_requests fromisoformat now limit minutes st =
      ((if in_datetime_range (dt_seconds now - 60 * minutes)
        then Ok l else Raise OverflowError), st) /\
    fst (get_recent_requests fromisoformat now limit minutes
           {| recent_requests :=
                mk_deque (maxlen (recent_requests st))
                  (List.filter (parseable fromisoformat) (items (recent_requests st)));
              recent_results := recent_results st |}) =
    fst (get_recent_requests fromisoformat now limit minutes st).
Proof.
  exists (requests_loop fromisoformat (minus_minutes now minutes) limit
            (rev (deque_list (recent_requests st))) []).
  split; [|split].
  - intros r Hin. apply requests_loop_in in Hin.
    destruct Hin as [[]|[_ Hp]]. exact Hp.
  - unfold get_recent_requests, sub_minutes. cbv zeta.
    cbn [dt_seconds minus_minutes].
    destruct (in_datetime_range _); reflexivity.
  - unfold get_recent_requests. destruct (sub_minutes now minutes); [|reflexivity].
    unfold deque_list. simpl.
    rewrite <- List.filter_rev, requests_loop_filter. reflexivity.
Qed.

(** ** Claim C4 *)

(** C4 (failing input): with [limit = 0], [get_recent_requests] returns a
    request although at most [limit] entries were asked for: the
    [len(recent) >= limit] check runs only after an entry is appended.
    The sibling [read_recent_requests(limit=0)] returns no entry. [now]
    is at least ten minutes after [datetime.min], as the live clock is, so
    the cutoff does not overflow. *)
Theorem get_recent_requests_limit_zero
    (fromisoformat : string -> option datetime) (now t : datetime)
    (req : request_entry) (st : state) :
  in_datetime_range (dt_seconds now - 600) = true ->
  fromisoformat (replace_Z (rq_timestamp req)) = Some t ->
  dt_aware t = dt_aware now ->
  (dt_seconds now - 600 <= dt_seconds t)%Z ->
  items (recent_requests st) = [req] ->
  get_recent_requests fromisoformat now 0 10 st = (Ok [req], st) /\
  forall fst : FerStatusTracker.state,
    FerStatusTracker.read_recent_requests 0 None fst = (Ok [], fst).
Proof.
  intros Hrange Hparse Haware Hrecent Hitems. split; [|reflexivity].
  assert (Hr : in_datetime_range (dt_seconds (minus_minutes now 10)) = true)
    by exact Hrange.
  unfold get_recent_requests, sub_minutes. cbv zeta. rewrite Hr.
  unfold deque_list. rewrite Hitems. simpl.
  unfold iteration. rewrite Hparse. unfold dt_ge, minus_minutes. simpl.
  rewrite Haware, Bool.eqb_reflx.
  replace (dt_seconds now - 60 * 10 <=? dt_seconds t)%Z with true
    by (symmetry; apply Z.leb_le; lia).
  reflexivity.
Qed.

(** A [datetime.fromisoformat] that knows one instant, to run the code. *)
Definition fromisoformat_sample (s : string) : option datetime :=
  if String.eqb s "2026-10-18T12:00:00+00:00"
  then Some {| dt_seconds := 1000; dt_aware := true |} else None.

Definition sample_request : request_entry :=
  {| rq_user_id := "11111111-1111-1111-1111-111111111111";
     rq_timestamp := "2026-10-18T12:00:00+00:00";
     rq_filename := "image.jpg"; rq_status := "received" |}.

Lemma get_recent_requests_limit_zero_witness :
  get_recent_requests fromisoformat_sample
    {| dt_seconds := 1200; dt_aware := true |} 0 10
    {| recent_requests := mk_deque 100 [sample_request];
       recent_results := deque_new 100 |} =
  (Ok [sample_request],
   {| recent_requests := mk_deque 100 [sample_request];
      recent_results := deque_new 100 |}) /\
  forall fst : FerStatusTracker.state,
    FerStatusTracker.read_recent_requests 0 None fst = (Ok [], fst).
Proof.
  apply (get_recent_requests_limit_zero fromisoformat_sample
           {| dt_seconds := 1200; dt_aware := true |}
           {| dt_seconds := 1000; dt_aware := true |}).
  - reflexivity.
  - reflexivity.
  - reflexivity.
  - simpl. lia.
  - reflexivity.
Defined.

End StatusTrackerProofs.

(* ------------------------------------------------------------------ *)
(** ** The aggregation buffer *)

Module AggregationBufferProofs.
Import AggregationBuffer.

Lemma in_candidates o w :
  In o (candidates w) <-> In o w /\ obs_label o <> "none".
Proof.
  unfold candidates. rewrite List.filter_In.
  rewrite Bool.negb_true_iff, String.eqb_neq. reflexivity.
Qed.

Lemma candidates_all_none w :
  (forall o, In o w -> obs_label o = "none") -> candidates w = [].
Proof.
  intros H. destruct (candidates w) as [|c cs] eqn:E; [reflexivity|].
  exfalso. assert (Hc : In c (candidates w)) by (rewrite E; left; reflexivity).
  apply in_candidates in Hc. destruct Hc as [Hin Hne]. exact (Hne (H c Hin)).
Qed.

Lemma best_ge_left b o : (obs_confidence b <= obs_confidence (best b o))%Q.
Proof.
  unfold best. destruct (Qlt_le_dec _ _) as [H|H].
  - apply Qlt_le_weak. exact H.
  - apply Qle_refl.
Qed.

Lemma best_ge_right b o : (obs_confidence o <= obs_confidence (best b o))%Q.
Proof.
  unfold best. destruct (Qlt_le_dec _ _) as [H|H]; [apply Qle_refl|exact H].
Qed.

(** The stable scan returns one of the scanned observations, of maximal
    confidence. *)
Lemma fold_best_max cs : forall c,
  In (fold_left best cs c) (c :: cs) /\
  forall o, In o (c :: cs) -> (obs_confidence o <= obs_confidence (fold_left best cs c))%Q.
Proof.
  induction cs as [|x cs IH]; intros c; simpl.
  - split; [auto|]. intros o [<-|[]]. apply Qle_refl.
  - destruct (IH (best c x)) as [Hin Hmax]. split.
    + destruct Hin as [Hb|Hin]; [|auto].
      rewrite <- Hb. unfold best. destruct (Qlt_le_dec _ _); simpl; auto.
    + intros o [<-|[<-|Ho]].
      * eapply Qle_trans; [apply best_ge_left|]. apply Hmax. left. reflexivity.
      * eapply Qle_trans; [apply best_ge_right|]. apply Hmax. left. reflexivity.
      * apply Hmax. right. exact Ho.
Qed.

Lemma window_insert b identity w : window (<[identity := w]> b) identity = w.
Proof. unfold window. rewrite lookup_insert_eq. reflexivity. Qed.

(** ** Claim C1 *)

(** C1: an [Ingest] call returns a result if and only if the time elapsed
    since the first observation of the identity's window, the new
    observation included, is at least [duration]; right after a call that
    returns a result, the identity's window is empty. Stated for every
    buffer, so for every buffer reached by a sequence of calls. *)
Theorem ingest_closes_exactly_once (duration : Z) (identity label : string)
    (confidence : Q) (now : Z) (b : gmap string (list observation)) :
  let w := window b identity ++
             [{| obs_timestamp := now; obs_label := label;
                 obs_confidence := confidence |}] in
  (fst (ingest duration identity label confidence now b) <> None <->
   (duration <= now - window_start w now)%Z) /\
  (fst (ingest duration identity label confidence now b) <> None ->
   window (snd (ingest duration identity label confidence now b)) identity = []).
Proof.
  simpl. unfold ingest.
  destruct (Z.ltb_spec (now - window_start (window b identity ++
              [{| obs_timestamp := now; obs_label := label;
                  obs_confidence := confidence |}]) now) duration) as [H|H].
  - simpl. split; [split; [congruence|lia]|congruence].
  - destruct (select_winner _) as [lbl conf]. simpl.
    split; [split; [lia|discriminate]|].
    intros _. apply window_insert.
Qed.

(** ** Claim C5 *)

(** C5: the winner of a closing window ignores the observations labelled
    ["none"]: if every observation is ["none"] the emitted result is
    [("none", 0)]; otherwise its label and confidence are those of an
    observation not labelled ["none"] whose confidence is maximal among
    such observations. *)
Theorem ingest_winner_excludes_none (duration : Z) (identity label : string)
    (confidence : Q) (now : Z) (b : gmap string (list observation)) :
  let w := window b identity ++
             [{| obs_timestamp := now; obs_label := label;
                 obs_confidence := confidence |}] in
  match fst (ingest duration identity label confidence now b) with
  | Some r =>
    ((forall o, In o w -> obs_label o = "none") ->
     agg_label r = "none" /\ agg_confidence r = 0%Q) /\
    ((exists o, In o w /\ obs_label o <> "none") ->
     exists o, In o w /\ obs_label o <> "none" /\
       agg_label r = obs_label o /\ agg_confidence r = obs_confidence o /\
       forall o', In o' w -> obs_label o' <> "none" ->
         (obs_confidence o' <= obs_confidence o)%Q)
  | None => True
  end.
Proof.
  simpl. unfold ingest.
  set (w := window b identity ++
              [{| obs_timestamp := now; obs_label := label;
                  obs_confidence := confidence |}]).
  destruct (_ <? _)%Z; [exact I|].
  unfold select_winner.
  destruct (candidates w) as [|c cs] eqn:Hc; simpl.
  - split; [auto|].
    intros [o [Hin Hne]]. exfalso.
    assert (Ho : In o (candidates w)) by (apply in_candidates; auto).
    rewrite Hc in Ho. destruct Ho.
  - destruct (fold_best_max cs c) as [Hin Hmax]. split.
    + intros Hall. rewrite candidates_all_none in Hc by exact Hall. discriminate.
    + intros _. exists (fold_left best cs c).
      rewrite <- Hc in Hin. apply in_candidates in Hin. destruct Hin as [Hin Hne].
      repeat split; auto.
      intros o' Ho' Hne'. apply Hmax. rewrite <- Hc. apply in_candidates. auto.
Qed.

End AggregationBufferProofs.

(* ------------------------------------------------------------------ *)
(** ** The [/fer/emotion] handler *)

Module MainProofs.
Import Main.

(** ** Claim C6 *)

(** C6: when the insert into the persistence service raises, the handler
    makes exactly one insert attempt (no retry), stores no row, keeps the
    request entry it logged (no rollback), appends the result entry with
    [db_write_success = False], and returns the classification result to
    the caller. *)
Theorem detect_emotion_db_failure_ignored
    (image : Type) (uuid_of : string -> option string)
    (dev_user_id : option string) (imdecode : list Byte.byte -> result (option image))
    (predict_emotion : image -> result prediction)
    (insert_outcome : db_record -> result unit) (now : datetime)
    (isoformat : datetime -> string) (strftime_date : datetime -> string)
    (filename : option string) (contents : list Byte.byte)
    (user_id : option string) (validated_id : string) (img : image)
    (p : prediction) (e : exn) (s : hstate) :
  get_validated_uuid uuid_of dev_user_id user_id = Some validated_id ->
  imdecode contents = Ok (Some img) ->
  predict_emotion img = Ok p ->
  lower (emotion p) <> "none" ->
  insert_outcome {| d_user_id := validated_id; d_timestamp := isoformat now;
                    d_predicted_emotion := emotion p;
                    d_emotion_confidence := confidence p;
                    d_date := strftime_date now |} = Raise e ->
  let run := detect_emotion image uuid_of dev_user_id imdecode predict_emotion
               true insert_outcome now isoformat strftime_date
               filename contents user_id s in
  fst run = Ok p /\
  tracker (snd run) =
    snd (FerStatusTracker.log_result validated_id (isoformat now)
           (emotion p) (confidence p) false filename
           (snd (FerStatusTracker.log_request validated_id (isoformat now)
                   filename (tracker s)))) /\
  db_attempts (snd run) =
    db_attempts s ++
      [{| d_user_id := validated_id; d_timestamp := isoformat now;
          d_predicted_emotion := emotion p;
          d_emotion_confidence := confidence p;
          d_date := strftime_date now |}] /\
  db_rows (snd run) = db_rows s.
Proof.
  intros Hid Himg Hpred Hnone Hins.
  assert (Hneq : negb (String.eqb (lower (emotion p)) "none") && true = true).
  { rewrite andb_true_r, Bool.negb_true_iff. apply String.eqb_neq. exact Hnone. }
  unfold detect_emotion. rewrite Hid.
  unfold bind, lift, py_try. simpl. rewrite Himg. simpl. rewrite Hpred.
  unfold persist. rewrite Hneq.
  unfold bind, py_try, supabase_insert. simpl. rewrite Hins. simpl.
  repeat split.
Qed.

Lemma detect_emotion_db_failure_ignored_witness :
  let run := detect_emotion unit (fun u => Some u) None
               (fun b => match b with [] => Raise CvError | _ => Ok (Some tt) end)
               (fun _ => Ok {| emotion := "happy"; confidence := 9 # 10 |})
               true (fun _ => Raise DBError)
               {| dt_seconds := 1000; dt_aware := true |}
               (fun _ => "2026-10-18T12:00:00+00:00") (fun _ => "2026-10-18")
               (Some "face.jpg") [Byte.xff]
               (Some "11111111-1111-1111-1111-111111111111")
               {| tracker := FerStatusTracker.init; db_attempts := [];
                  db_rows := [] |} in
  fst run = Ok {| emotion := "happy"; confidence := 9 # 10 |} /\
  tracker (snd run) =
    snd (FerStatusTracker.log_result "11111111-1111-1111-1111-111111111111"
           "2026-10-18T12:00:00+00:00" "happy" (9 # 10) false (Some "face.jpg")
           (snd (FerStatusTracker.log_request
                   "11111111-1111-1111-1111-111111111111"
                   "2026-10-18T12:00:00+00:00" (Some "face.jpg")
                   FerStatusTracker.init))) /\
  db_attempts (snd run) =
    [] ++
      [{| d_user_id := "11111111-1111-1111-1111-111111111111";
          d_timestamp := "2026-10-18T12:00:00+00:00";
          d_predicted_emotion := "happy";
          d_emotion_confidence := 9 # 10;
          d_date := "2026-10-18" |}] /\
  db_rows (snd run) = [].
Proof.
  apply (detect_emotion_db_failure_ignored unit (fun u => Some u) None
           (fun b => match b with [] => Raise CvError | _ => Ok (Some tt) end)
           (fun _ => Ok {| emotion := "happy"; confidence := 9 # 10 |})
           (fun _ => Raise DBError)
           {| dt_seconds := 1000; dt_aware := true |}
           (fun _ => "2026-10-18T12:00:00+00:00") (fun _ => "2026-10-18")
           (Some "face.jpg") [Byte.xff] (Some "11111111-1111-1111-1111-111111111111")
           "11111111-1111-1111-1111-111111111111" tt
           {| emotion := "happy"; confidence := 9 # 10 |} DBError).
  - reflexivity.
  - reflexivity.
  - reflexivity.
  - vm_compute. discriminate.
  - reflexivity.
Defined.

End MainProofs.

(* ------------------------------------------------------------------ *)
(** ** Runs of the spec's scenario and of the ring log *)

Module Scenarios.
Import AggregationBuffer.

(** Duration 60s, identity "u1": observations at t = 0, 10 and 61. *)
Example aggregation_scenario :
  let '(r1, b1) := ingest 60 "u1" "sad" (70 # 100) 0 empty in
  let '(r2, b2) := ingest 60 "u1" "happy" (90 # 100) 10 b1 in
  let '(r3, b3) := ingest 60 "u1" "neutral" (40 # 100) 61 b2 in
  r1 = None /\ r2 = None /\
  r3 = Some {| agg_identity := "u1"; agg_label := "happy";
               agg_confidence := 90 # 100; agg_count := 3 |} /\
  window b3 "u1" = [].
Proof. vm_compute. repeat split. Qed.

(** 150 results into the capacity-100 log: a query with a large limit
    returns 100 entries. *)
Example ring_scenario :
  match fst (FerStatusTracker.read_recent_results 1000 None
               (FerStatusTracker.log_results
                  (repeat FerStatusTrackerProofs.sample_args 150)
                  FerStatusTracker.init)) with
  | Ok l => length l = 100
  | Raise _ => False
  end.
Proof. vm_compute. reflexivity. Qed.

End Scenarios.

(* ------------------------------------------------------------------ *)
(** ** More of [fer_status_tracker] *)

Module FerStatusTrackerMore.
Import FerStatusTracker DequeFacts FerStatusTrackerProofs.

Lemma user_filter_some {E} (uid : E -> string) (u : string) l :
  u <> "" -> user_filter uid (Some u) l = List.filter (fun e => String.eqb (uid e) u) l.
Proof. intros H. destruct u; [congruence|reflexivity]. Qed.

Lemma firstn_rev_lastn {A} k (l : list A) : firstn k (rev l) = rev (lastn k l).
Proof. unfold lastn. apply firstn_rev. Qed.

(** With a nonnegative [limit] and a non-empty [user_id], each reader
    returns the [limit] most recently logged entries of that user, newest
    first. *)
Theorem read_recent_of_user (limit : Z) (u : string) (st : state) :
  (0 <= limit)%Z -> u <> "" ->
  fst (read_recent_requests limit (Some u) st) =
    Ok (rev (lastn (Z.to_nat limit)
               (List.filter (fun e => String.eqb (rq_user_id e) u)
                  (items (recent_requests st))))) /\
  fst (read_recent_results limit (Some u) st) =
    Ok (rev (lastn (Z.to_nat limit)
               (List.filter (fun e => String.eqb (rs_user_id e) u)
                  (items (recent_results st))))).
Proof.
  intros Hl Hu.
  unfold read_recent_requests, read_recent_results, py_try, deque_list.
  cbv beta iota zeta. cbn [fst].
  rewrite !user_filter_some by exact Hu.
  rewrite !List.filter_rev.
  unfold py_slice_to. destruct (Z.leb_spec 0 limit); [|lia].
  rewrite !firstn_rev_lastn. split; reflexivity.
Qed.

Lemma read_recent_of_user_witness :
  (0 <= 2)%Z /\ "u1" <> "" /\
  fst (read_recent_requests 2 (Some "u1") init) =
    Ok (rev (lastn (Z.to_nat 2)
               (List.filter (fun e => String.eqb (rq_user_id e) "u1")
                  (items (recent_requests init))))) /\
  fst (read_recent_results 2 (Some "u1") init) =
    Ok (rev (lastn (Z.to_nat 2)
               (List.filter (fun e => String.eqb (rs_user_id e) "u1")
                  (items (recent_results init))))).
Proof.
  split; [lia|]. split; [discriminate|].
  apply (read_recent_of_user 2 "u1" init); [lia|discriminate].
Defined.

(** An empty [user_id] is falsy: it filters nothing and both readers
    answer as without a filter, with every user's entries. *)
Theorem read_recent_empty_user (limit : Z) (st : state) :
  read_recent_requests limit (Some "") st = read_recent_requests limit None st /\
  read_recent_results limit (Some "") st = read_recent_results limit None st.
Proof. split; reflexivity. Qed.

(** A negative [limit] [-(k+1)] drops the [k+1] oldest entries: the reader
    returns every other entry, newest first. *)
Theorem read_recent_negative_limit (k : nat) (st : state) :
  fst (read_recent_requests (- Z.of_nat (S k)) None st) =
    Ok (rev (skipn (S k) (items (recent_requests st)))) /\
  fst (read_recent_results (- Z.of_nat (S k)) None st) =
    Ok (rev (skipn (S k) (items (recent_results st)))).
Proof.
  assert (Hgen : forall A (l : list A),
             py_slice_to (rev l) (- Z.of_nat (S k)) = rev (skipn (S k) l)).
  { intros A l. unfold py_slice_to.
    destruct (Z.leb_spec 0 (- Z.of_nat (S k))); [lia|].
    replace (Z.to_nat (- - Z.of_nat (S k))) with (S k) by lia.
    rewrite length_rev, firstn_rev.
    destruct (Nat.le_gt_cases (S k) (length l)).
    - f_equal. f_equal. lia.
    - rewrite !skipn_all2 by lia. reflexivity. }
  unfold read_recent_requests, read_recent_results, py_try, deque_list.
  cbv beta iota zeta. cbn [fst]. rewrite !user_filter_None, !Hgen.
  split; reflexivity.
Qed.

Lemma run_log_requests (reqs : list (string * string * option string)) :
  forall st,
  recent_requests (run (map (fun '(u, t, f) => OpLogRequest u t f) reqs) st) =
  fold_left deque_append
    (map (fun '(u, t, f) => request_log_entry u t f) reqs) (recent_requests st).
Proof.
  induction reqs as [|[[u t] f] reqs IH]; intros st; [reflexivity|].
  simpl. unfold run in *. simpl. rewrite IH. reflexivity.
Qed.

(** From the initial state, after [n] calls of [log_request],
    [get_request_count] returns [min(n, 100)]. *)
Theorem request_count_after_logs (reqs : list (string * string * option string)) :
  fst (get_request_count
         (run (map (fun '(u, t, f) => OpLogRequest u t f) reqs) init)) =
  Ok (Nat.min (length reqs) 100).
Proof.
  destruct (fold_append_lastn 100
              (map (fun '(u, t, f) => request_log_entry u t f) reqs)
              (recent_requests init) [] eq_refl ltac:(lia) eq_refl) as [_ H].
  rewrite <- run_log_requests in H.
  unfold get_request_count. simpl fst. rewrite H.
  unfold lastn. rewrite length_skipn. simpl. rewrite length_map.
  f_equal. lia.
Qed.

End FerStatusTrackerMore.

(* ------------------------------------------------------------------ *)
(** ** More of [StatusTracker] *)

Module StatusTrackerMore.
Import StatusTracker StatusTrackerProofs DequeFacts.

(** [get_recent_results(limit)] returns the [limit] newest results, newest
    first, for a positive [limit]; with [limit = 0] it returns every stored
    result ([[-0:]] is the whole list). *)
Theorem get_recent_results_newest (st : state) :
  (forall limit, (1 <= limit)%Z ->
     fst (get_recent_results limit st) =
     Ok (firstn (Z.to_nat limit) (rev (items (recent_results st))))) /\
  fst (get_recent_results 0 st) = Ok (rev (items (recent_results st))).
Proof.
  split; [|reflexivity].
  intros limit H. unfold get_recent_results, py_slice_last, deque_list. simpl.
  destruct (Z.ltb_spec 0 limit); [|lia].
  rewrite firstn_rev. reflexivity.
Qed.

(** One pass of the loop appends a subsequence of the requests it scans,
    each of them parsed, comparable with and not older than [cutoff_time]. *)
Lemma requests_loop_sub fromisoformat c limit reqs : forall acc,
  exists sub,
    requests_loop fromisoformat c limit reqs acc = acc ++ sub /\
    sub `sublist_of` reqs /\
    Forall (fun r => exists t, fromisoformat (replace_Z (rq_timestamp r)) = Some t /\
              dt_aware t = dt_aware c /\ (dt_seconds c <= dt_seconds t)%Z) sub.
Proof.
  induction reqs as [|r reqs IH]; intros acc.
  - exists []. rewrite app_nil_r. split; [reflexivity|]. split; constructor.
  - simpl. unfold iteration.
    destruct (fromisoformat (replace_Z (rq_timestamp r))) as [t|] eqn:Hf.
    2:{ destruct (IH acc) as (sub & H1 & H2 & H3). exists sub.
        split; [exact H1|]. split; [constructor; exact H2|exact H3]. }
    unfold dt_ge.
    destruct (Bool.eqb_spec (dt_aware t) (dt_aware c)) as [Ha|Ha].
    2:{ destruct (IH acc) as (sub & H1 & H2 & H3). exists sub.
        split; [exact H1|]. split; [constructor; exact H2|exact H3]. }
    destruct (Z.leb_spec (dt_seconds c) (dt_seconds t)) as [Hle|Hlt].
    2:{ destruct (IH acc) as (sub & H1 & H2 & H3). exists sub.
        split; [exact H1|]. split; [constructor; exact H2|exact H3]. }
    assert (Hgood : exists t', fromisoformat (replace_Z (rq_timestamp r)) = Some t' /\
              dt_aware t' = dt_aware c /\ (dt_seconds c <= dt_seconds t')%Z)
      by eauto.
    destruct (_ <=? _)%Z.
    + exists [r]. split; [reflexivity|]. split.
      * apply sublist_skip, sublist_nil_l.
      * constructor; [exact Hgood|constructor].
    + destruct (IH (acc ++ [r])) as (sub & H1 & H2 & H3).
      exists (r :: sub). rewrite H1, <- app_assoc. split; [reflexivity|].
      split; [apply sublist_skip; exact H2|constructor; assumption].
Qed.

(** For a positive [limit], [get_recent_requests] returns at most [limit]
    entries, taken newest first from the log in log order, each with a
    timestamp that parses to a datetime as timezone-aware as [now] and not
    older than [now - minutes]. *)
Theorem get_recent_requests_spec (fromisoformat : string -> option datetime)
    (now : datetime) (limit minutes : Z) (st : state) :
  (1 <= limit)%Z ->
  in_datetime_range (dt_seconds now - 60 * minutes) = true ->
  exists l,
    get_recent_requests fromisoformat now limit minutes st = (Ok l, st) /\
    (Z.of_nat (length l) <= limit)%Z /\
    l `sublist_of` rev (items (recent_requests st)) /\
    Forall (fun r => exists t, fromisoformat (replace_Z (rq_timestamp r)) = Some t /\
              dt_aware t = dt_aware now /\
              (dt_seconds now - 60 * minutes <= dt_seconds t)%Z) l.
Proof.
  intros Hlim Hrange.
  assert (Hr : in_datetime_range (dt_seconds (minus_minutes now minutes)) = true)
    by exact Hrange.
  pose proof (requests_loop_length fromisoformat (minus_minutes now minutes) limit
                (rev (deque_list (recent_requests st))) [] ltac:(simpl; lia)) as Hlen.
  destruct (requests_loop_sub fromisoformat (minus_minutes now minutes) limit
              (rev (deque_list (recent_requests st))) []) as (sub & H1 & H2 & H3).
  exists sub. unfold get_recent_requests, sub_minutes. cbv zeta. rewrite Hr, H1. simpl.
  rewrite H1 in Hlen. simpl in Hlen.
  split; [reflexivity|]. split; [exact Hlen|]. split; [exact H2|].
  exact H3.
Qed.

Lemma get_recent_requests_spec_witness :
  (1 <= 20)%Z /\
  in_datetime_range (dt_seconds {| dt_seconds := 1200; dt_aware := true |} - 60 * 10) = true /\
  exists l,
    get_recent_requests fromisoformat_sample {| dt_seconds := 1200; dt_aware := true |}
      20 10 {| recent_requests := mk_deque 100 [sample_request];
               recent_results := deque_new 100 |} =
      (Ok l, {| recent_requests := mk_deque 100 [sample_request];
                recent_results := deque_new 100 |}) /\
    (Z.of_nat (length l) <= 20)%Z /\
    l `sublist_of` rev (items (recent_requests
                                {| recent_requests := mk_deque 100 [sample_request];
                                   recent_results := deque_new 100 |})) /\
    Forall (fun r => exists t, fromisoformat_sample (replace_Z (rq_timestamp r)) = Some t /\
              dt_aware t = dt_aware {| dt_seconds := 1200; dt_aware := true |} /\
              (dt_seconds {| dt_seconds := 1200; dt_aware := true |} - 60 * 10
               <= dt_seconds t)%Z) l.
Proof.
  split; [lia|]. split; [reflexivity|].
  apply (get_recent_requests_spec fromisoformat_sample
           {| dt_seconds := 1200; dt_aware := true |} 20 10
           {| recent_requests := mk_deque 100 [sample_request];
              recent_results := deque_new 100 |}).
  - lia.
  - reflexivity.
Defined.

(** A [StatusTracker(m, n)] never holds more than [m] requests and [n]
    results, whatever calls it receives. *)
Theorem status_tracker_bounded (isoformat : datetime -> string)
    (fromisoformat : string -> option datetime)
    (ops : list StatusTrackerRun.op) (m n : nat) :
  length (items (recent_requests (StatusTrackerRun.run isoformat fromisoformat ops (new m n))))
    <= m /\
  length (items (recent_results (StatusTrackerRun.run isoformat fromisoformat ops (new m n))))
    <= n.
Proof.
  assert (Hinv : forall ops st,
    maxlen (recent_requests st) = m -> length (items (recent_requests st)) <= m ->
    maxlen (recent_results st) = n -> length (items (recent_results st)) <= n ->
    let st' := StatusTrackerRun.run isoformat fromisoformat ops st in
    maxlen (recent_requests st') = m /\ length (items (recent_requests st')) <= m /\
    maxlen (recent_results st') = n /\ length (items (recent_results st')) <= n).
  { induction ops0 as [|o ops0 IH]; intros st H1 H2 H3 H4; simpl; [auto|].
    apply IH; destruct o; cbn [StatusTrackerRun.step];
      rewrite ?get_recent_requests_state; simpl;
      rewrite ?deque_append_maxlen; auto;
      [rewrite <- H1; apply deque_append_length; lia
      |rewrite <- H3; apply deque_append_length; lia]. }
  destruct (Hinv ops (new m n)) as (_ & H2 & _ & H4); simpl; auto; lia.
Qed.

End StatusTrackerMore.

(* ------------------------------------------------------------------ *)
(** ** More of the [/fer/emotion] handler *)

Module MainMore.
Import Main.

(** The validated id comes from the form's [user_id] or from
    [DEV_USER_ID], and a valid non-empty form id always wins. *)
Theorem get_validated_uuid_source (uuid_of : string -> option string)
    (dev_user_id : option string) :
  (forall r v, r <> "" -> uuid_of r = Some v ->
     get_validated_uuid uuid_of dev_user_id (Some r) = Some v) /\
  (forall u v, get_validated_uuid uuid_of dev_user_id u = Some v ->
     (exists r, u = Some r /\ uuid_of r = Some v) \/
     (exists e, dev_user_id = Some e /\ uuid_of e = Some v)).
Proof.
  split.
  - intros r v Hr Hv. unfold get_validated_uuid.
    destruct r as [|c r]; [congruence|]. simpl. rewrite Hv. reflexivity.
  - intros u v H. unfold get_validated_uuid in H.
    destruct u as [r|].
    + destruct (if str_truthy (Some r) then uuid_of r else None) as [w|] eqn:Hw.
      * injection H as <-. left. exists r. split; [reflexivity|].
        destruct (str_truthy (Some r)); [exact Hw|discriminate].
      * destruct dev_user_id as [e|]; [|discriminate].
        right. exists e. split; [reflexivity|].
        destruct (str_truthy (Some e)); [exact H|discriminate].
    + destruct dev_user_id as [e|]; [|discriminate].
      right. exists e. split; [reflexivity|].
      destruct (str_truthy (Some e)); [exact H|discriminate].
Qed.

Section Handler.

Variable image : Type.
Variable uuid_of : string -> option string.
Variable dev_user_id : option string.
Variable imdecode : list Byte.byte -> result (option image).
Variable predict_emotion : image -> result prediction.
Variable supabase_configured : bool.
Variable insert_outcome : db_record -> result unit.
Variable now : datetime.
Variable isoformat : datetime -> string.
Variable strftime_date : datetime -> string.

(** The state after [log_request] only. *)
Definition after_request (validated_id : string) (filename : option string)
    (s : hstate) : hstate :=
  {| tracker := snd (FerStatusTracker.log_request validated_id (isoformat now)
                       filename (tracker s));
     db_attempts := db_attempts s; db_rows := db_rows s |}.

(** Without a valid identity the handler raises HTTP 400 and changes
    nothing: no request is logged, nothing is persisted. *)
Theorem detect_emotion_invalid_identity (filename : option string)
    (contents : list Byte.byte) (user_id : option string) (s : hstate) :
  get_validated_uuid uuid_of dev_user_id user_id = None ->
  detect_emotion image uuid_of dev_user_id imdecode predict_emotion
    supabase_configured insert_outcome now isoformat strftime_date
    filename contents user_id s = (Raise (HTTPException 400), s).
Proof. intros H. unfold detect_emotion. rewrite H. reflexivity. Qed.

(** Bytes that [cv2.imdecode] reads without raising but cannot decode
    give HTTP 400 after the request was logged: no result is logged and
    nothing is persisted. *)
Theorem detect_emotion_bad_image (filename : option string)
    (contents : list Byte.byte) (user_id : option string)
    (validated_id : string) (s : hstate) :
  get_validated_uuid uuid_of dev_user_id user_id = Some validated_id ->
  imdecode contents = Ok None ->
  detect_emotion image uuid_of dev_user_id imdecode predict_emotion
    supabase_configured insert_outcome now isoformat strftime_date
    filename contents user_id s =
  (Raise (HTTPException 400), after_request validated_id filename s).
Proof.
  intros Hid Himg. unfold detect_emotion. rewrite Hid.
  unfold bind, lift, py_try. simpl. rewrite Himg. reflexivity.
Qed.

(** An exception of [cv2.imdecode] itself (such as [cv2.error] on an empty
    upload) is not an HTTP error: the handler answers HTTP 500, after the
    request was logged, with no result logged and nothing persisted. *)
Theorem detect_emotion_decode_error (filename : option string)
    (contents : list Byte.byte) (user_id : option string)
    (validated_id : string) (e : exn) (s : hstate) :
  get_validated_uuid uuid_of dev_user_id user_id = Some validated_id ->
  imdecode contents = Raise e ->
  (forall c, e <> HTTPException c) ->
  detect_emotion image uuid_of dev_user_id imdecode predict_emotion
    supabase_configured insert_outcome now isoformat strftime_date
    filename contents user_id s =
  (Raise (HTTPException 500), after_request validated_id filename s).
Proof.
  intros Hid Himg He. unfold detect_emotion. rewrite Hid.
  unfold bind, lift, py_try. simpl. rewrite Himg.
  destruct e; try reflexivity. exfalso. eapply He. reflexivity.
Qed.

(** An exception of the classifier (other than an HTTP error) becomes
    HTTP 500 after the request was logged: no result is logged and
    nothing is persisted. *)
Theorem detect_emotion_model_error (filename : option string)
    (contents : list Byte.byte) (user_id : option string)
    (validated_id : string) (img : image) (e : exn) (s : hstate) :
  get_validated_uuid uuid_of dev_user_id user_id = Some validated_id ->
  imdecode contents = Ok (Some img) ->
  predict_emotion img = Raise e ->
  (forall c, e <> HTTPException c) ->
  detect_emotion image uuid_of dev_user_id imdecode predict_emotion
    supabase_configured insert_outcome now isoformat strftime_date
    filename contents user_id s =
  (Raise (HTTPException 500), after_request validated_id filename s).
Proof.
  intros Hid Himg Hpred He. unfold detect_emotion. rewrite Hid.
  unfold bind, lift, py_try. simpl. rewrite Himg. simpl. rewrite Hpred.
  destruct e; try reflexivity. exfalso. exact (He status_code eq_refl).
Qed.

(** A ["none"] label (in any letter case), or no configured client, means
    no insert is attempted: the result is logged with
    [db_write_success = False] and returned. *)
Theorem detect_emotion_not_persisted (filename : option string)
    (contents : list Byte.byte) (user_id : option string)
    (validated_id : string) (img : image) (p : prediction) (s : hstate) :
  get_validated_uuid uuid_of dev_user_id user_id = Some validated_id ->
  imdecode contents = Ok (Some img) ->
  predict_emotion img = Ok p ->
  lower (emotion p) = "none" \/ supabase_configured = false ->
  detect_emotion image uuid_of dev_user_id imdecode predict_emotion
    supabase_configured insert_outcome now isoformat strftime_date
    filename contents user_id s =
  (Ok p,
   {| tracker := snd (FerStatusTracker.log_result validated_id (isoformat now)
                        (emotion p) (confidence p) false filename
                        (tracker (after_request validated_id filename s)));
      db_attempts := db_attempts s; db_rows := db_rows s |}).
Proof.
  intros Hid Himg Hpred Hcond.
  assert (Hneq : negb (String.eqb (lower (emotion p)) "none") && supabase_configured = false).
  { destruct Hcond as [H|H]; rewrite H; [reflexivity|apply andb_false_r]. }
  unfold detect_emotion. rewrite Hid.
  unfold bind, lift, py_try. simpl. rewrite Himg. simpl. rewrite Hpred.
  unfold persist. rewrite Hneq. reflexivity.
Qed.

(** A successful insert stores exactly one row, the prediction with the
    validated id and the request's timestamp, and the result is logged
    with [db_write_success = True]. *)
Theorem detect_emotion_persisted (filename : option string)
    (contents : list Byte.byte) (user_id : option string)
    (validated_id : string) (img : image) (p : prediction) (s : hstate) :
  let r := {| d_user_id := validated_id; d_timestamp := isoformat now;
              d_predicted_emotion := emotion p;
              d_emotion_confidence := confidence p;
              d_date := strftime_date now |} in
  get_validated_uuid uuid_of dev_user_id user_id = Some validated_id ->
  imdecode contents = Ok (Some img) ->
  predict_emotion img = Ok p ->
  lower (emotion p) <> "none" ->
  supabase_configured = true ->
  insert_outcome r = Ok tt ->
  detect_emotion image uuid_of dev_user_id imdecode predict_emotion
    supabase_configured insert_outcome now isoformat strftime_date
    filename contents user_id s =
  (Ok p,
   {| tracker := snd (FerStatusTracker.log_result validated_id (isoformat now)
                        (emotion p) (confidence p) true filename
                        (tracker (after_request validated_id filename s)));
      db_attempts := db_attempts s ++ [r]; db_rows := db_rows s ++ [r] |}).
Proof.
  intros r Hid Himg Hpred Hnone Hsup Hins.
  assert (Hneq : negb (String.eqb (lower (emotion p)) "none") && supabase_configured = true).
  { rewrite Hsup, andb_true_r, Bool.negb_true_iff. apply String.eqb_neq. exact Hnone. }
  unfold detect_emotion. rewrite Hid.
  unfold bind, lift, py_try. simpl. rewrite Himg. simpl. rewrite Hpred.
  unfold persist. rewrite Hneq.
  unfold bind, py_try, supabase_insert. simpl. fold r. rewrite Hins. reflexivity.
Qed.

End Handler.

(** Collaborators to run the handler on. *)
Definition uuid_sample (s : string) : option string :=
  if String.eqb s "11111111-1111-1111-1111-111111111111" then Some s else None.
(** [cv2.imdecode] raises on an empty buffer; here the single byte 0 is
    not an image and every other upload is. *)
Definition decode_sample (b : list Byte.byte) : result (option unit) :=
  match b with
  | [] => Raise CvError
  | [Byte.x00] => Ok None
  | _ => Ok (Some tt)
  end.
Definition now_sample : datetime := {| dt_seconds := 1000; dt_aware := true |}.
Definition iso_sample (_ : datetime) : string := "2026-10-18T12:00:00+00:00".
Definition date_sample (_ : datetime) : string := "2026-10-18".
Definition state_sample : hstate :=
  {| tracker := FerStatusTracker.init; db_attempts := []; db_rows := [] |}.
Definition happy : prediction := {| emotion := "happy"; confidence := 9 # 10 |}.
Definition none_label : prediction := {| emotion := "None"; confidence := 0 |}.
Definition record_sample : db_record :=
  {| d_user_id := "11111111-1111-1111-1111-111111111111";
     d_timestamp := "2026-10-18T12:00:00+00:00";
     d_predicted_emotion := "happy"; d_emotion_confidence := 9 # 10;
     d_date := "2026-10-18" |}.

Lemma detect_emotion_invalid_identity_witness :
  get_validated_uuid uuid_sample None (Some "not-a-uuid") = None /\
  detect_emotion unit uuid_sample None decode_sample (fun _ => Ok happy) true
    (fun _ => Ok tt) now_sample iso_sample date_sample (Some "face.jpg")
    [Byte.x00] (Some "not-a-uuid") state_sample =
  (Raise (HTTPException 400), state_sample).
Proof.
  split; [reflexivity|].
  apply (detect_emotion_invalid_identity unit uuid_sample None decode_sample
           (fun _ => Ok happy) true (fun _ => Ok tt) now_sample iso_sample
           date_sample).
  reflexivity.
Defined.

Lemma detect_emotion_bad_image_witness :
  detect_emotion unit uuid_sample None decode_sample (fun _ => Ok happy) true
    (fun _ => Ok tt) now_sample iso_sample date_sample (Some "face.jpg") [Byte.x00]
    (Some "11111111-1111-1111-1111-111111111111") state_sample =
  (Raise (HTTPException 400),
   after_request now_sample iso_sample "11111111-1111-1111-1111-111111111111"
     (Some "face.jpg") state_sample).
Proof.
  apply (detect_emotion_bad_image unit uuid_sample None decode_sample
           (fun _ => Ok happy) true (fun _ => Ok tt) now_sample iso_sample
           date_sample); reflexivity.
Defined.

Lemma detect_emotion_decode_error_witness :
  detect_emotion unit uuid_sample None decode_sample (fun _ => Ok happy) true
    (fun _ => Ok tt) now_sample iso_sample date_sample (Some "face.jpg") []
    (Some "11111111-1111-1111-1111-111111111111") state_sample =
  (Raise (HTTPException 500),
   after_request now_sample iso_sample "11111111-1111-1111-1111-111111111111"
     (Some "face.jpg") state_sample).
Proof.
  apply (detect_emotion_decode_error unit uuid_sample None decode_sample
           (fun _ => Ok happy) true (fun _ => Ok tt) now_sample iso_sample
           date_sample (Some "face.jpg") [] (Some "11111111-1111-1111-1111-111111111111")
           "11111111-1111-1111-1111-111111111111" CvError);
    [reflexivity|reflexivity|discriminate].
Defined.

Lemma detect_emotion_model_error_witness :
  detect_emotion unit uuid_sample None decode_sample (fun _ => Raise ValueError) true
    (fun _ => Ok tt) now_sample iso_sample date_sample (Some "face.jpg") [Byte.xff; Byte.xd8]
    (Some "11111111-1111-1111-1111-111111111111") state_sample =
  (Raise (HTTPException 500),
   after_request now_sample iso_sample "11111111-1111-1111-1111-111111111111"
     (Some "face.jpg") state_sample).
Proof.
  apply (detect_emotion_model_error unit uuid_sample None decode_sample
           (fun _ => Raise ValueError) true (fun _ => Ok tt) now_sample iso_sample
           date_sample (Some "face.jpg") [Byte.xff; Byte.xd8]
           (Some "11111111-1111-1111-1111-111111111111")
           "11111111-1111-1111-1111-111111111111" tt ValueError);
    [reflexivity|reflexivity|reflexivity|discriminate].
Defined.

Lemma detect_emotion_not_persisted_witness :
  detect_emotion unit uuid_sample None decode_sample (fun _ => Ok none_label) true
    (fun _ => Ok tt) now_sample iso_sample date_sample (Some "face.jpg") [Byte.xff; Byte.xd8]
    (Some "11111111-1111-1111-1111-111111111111") state_sample =
  (Ok none_label,
   {| tracker := snd (FerStatusTracker.log_result
                        "11111111-1111-1111-1111-111111111111" (iso_sample now_sample)
                        (emotion none_label) (confidence none_label) false
                        (Some "face.jpg")
                        (tracker (after_request now_sample iso_sample
                                    "11111111-1111-1111-1111-111111111111"
                                    (Some "face.jpg") state_sample)));
      db_attempts := []; db_rows := [] |}).
Proof.
  apply (detect_emotion_not_persisted unit uuid_sample None decode_sample
           (fun _ => Ok none_label) true (fun _ => Ok tt) now_sample iso_sample
           date_sample (Some "face.jpg") [Byte.xff; Byte.xd8]
           (Some "11111111-1111-1111-1111-111111111111")
           "11111111-1111-1111-1111-111111111111" tt none_label);
    [reflexivity|reflexivity|reflexivity|left; vm_compute; reflexivity].
Defined.

Lemma detect_emotion_persisted_witness :
  detect_emotion unit uuid_sample None decode_sample (fun _ => Ok happy) true
    (fun _ => Ok tt) now_sample iso_sample date_sample (Some "face.jpg") [Byte.xff; Byte.xd8]
    (Some "11111111-1111-1111-1111-111111111111") state_sample =
  (Ok happy,
   {| tracker := snd (FerStatusTracker.log_result
                        "11111111-1111-1111-1111-111111111111" (iso_sample now_sample)
                        (emotion happy) (confidence happy) true (Some "face.jpg")
                        (tracker (after_request now_sample iso_sample
                                    "11111111-1111-1111-1111-111111111111"
                                    (Some "face.jpg") state_sample)));
      db_attempts := [] ++ [record_sample]; db_rows := [] ++ [record_sample] |}).
Proof.
  apply (detect_emotion_persisted unit uuid_sample None decode_sample
           (fun _ => Ok happy) true (fun _ => Ok tt) now_sample iso_sample
           date_sample (Some "face.jpg") [Byte.xff; Byte.xd8]
           (Some "11111111-1111-1111-1111-111111111111")
           "11111111-1111-1111-1111-111111111111" tt happy);
    [reflexivity|reflexivity|reflexivity|vm_compute; discriminate
    |reflexivity|reflexivity].
Defined.

End MainMore.

(* ------------------------------------------------------------------ *)
(** ** The [/fer/status] endpoint of [main.py] *)

Module MainStatusProofs.
Import FerStatusTracker MainStatus FerStatusTrackerProofs.

(** [a] comes before [b] in decreasing timestamp order. *)
Definition ts_desc (a b : request_entry) : Prop :=
  String.leb (rq_timestamp b) (rq_timestamp a) = true.

Lemma insert_desc_perm x l : Permutation (insert_desc x l) (x :: l).
Proof.
  induction l as [|h t IH]; simpl; [reflexivity|].
  destruct (String.leb _ _); [|reflexivity].
  rewrite IH. apply perm_swap.
Qed.

Lemma sort_desc_perm_gen l : forall acc,
  Permutation (fold_left (fun acc x => insert_desc x acc) l acc) (l ++ acc).
Proof.
  induction l as [|x l IH]; intros acc; simpl; [reflexivity|].
  rewrite IH, insert_desc_perm. symmetry. apply Permutation_middle.
Qed.

Lemma sort_desc_perm l : Permutation (sort_desc l) l.
Proof. unfold sort_desc. rewrite sort_desc_perm_gen, app_nil_r. reflexivity. Qed.

Lemma insert_desc_hd h x t :
  HdRel ts_desc h t -> ts_desc h x -> HdRel ts_desc h (insert_desc x t).
Proof.
  intros Ht Hx. destruct t as [|y t]; simpl.
  - constructor. exact Hx.
  - destruct (String.leb _ _); constructor; [inversion Ht; assumption|exact Hx].
Qed.

Lemma insert_desc_sorted x l : Sorted ts_desc l -> Sorted ts_desc (insert_desc x l).
Proof.
  induction l as [|h t IH]; intros Hs; simpl.
  - repeat constructor.
  - inversion Hs as [|? ? Ht Hh]; subst.
    destruct (String.leb (rq_timestamp x) (rq_timestamp h)) eqn:E.
    + constructor; [apply IH; exact Ht|]. apply insert_desc_hd; [exact Hh|exact E].
    + constructor; [exact Hs|]. constructor. unfold ts_desc.
      destruct (String.leb_total (rq_timestamp x) (rq_timestamp h)) as [H|H];
        [congruence|exact H].
Qed.

Lemma sort_desc_sorted l : Sorted ts_desc (sort_desc l).
Proof.
  unfold sort_desc.
  assert (H : forall l acc, Sorted ts_desc acc ->
            Sorted ts_desc (fold_left (fun acc x => insert_desc x acc) l acc)).
  { induction l0 as [|x l0 IH]; intros acc Hacc; simpl; [exact Hacc|].
    apply IH. apply insert_desc_sorted. exact Hacc. }
  apply H. constructor.
Qed.

Lemma firstn_sorted {A} (R : A -> A -> Prop) n l :
  Sorted R l -> Sorted R (firstn n l).
Proof.
  revert n. induction l as [|x l IH]; intros n Hs; destruct n; simpl;
    [constructor|constructor|constructor|].
  inversion Hs as [|? ? Hl Hh]; subst.
  constructor; [apply IH; exact Hl|].
  destruct l as [|y l]; destruct n; simpl; constructor.
  inversion Hh. assumption.
Qed.

Lemma filter_recent_in fromisoformat c reqs r :
  In r (filter_recent fromisoformat c reqs) ->
  exists r0 t, In r0 reqs /\ r = format_request r0 /\
    fromisoformat (replace_Z (rq_timestamp r0)) = Some t /\
    dt_aware t = dt_aware c /\ (dt_seconds c <= dt_seconds t)%Z.
Proof.
  induction reqs as [|q reqs IH]; simpl; [intros []|].
  unfold is_recent.
  destruct (fromisoformat (replace_Z (rq_timestamp q))) as [t|] eqn:Hf.
  2:{ intros H. destruct (IH H) as (r0 & t' & H1 & H2). exists r0, t'. tauto. }
  unfold dt_ge.
  destruct (Bool.eqb_spec (dt_aware t) (dt_aware c)) as [Ha|Ha].
  2:{ intros H. destruct (IH H) as (r0 & t' & H1 & H2). exists r0, t'. tauto. }
  destruct (Z.leb_spec (dt_seconds c) (dt_seconds t)) as [Hle|Hlt].
  2:{ intros H. destruct (IH H) as (r0 & t' & H1 & H2). exists r0, t'. tauto. }
  intros [<-|H].
  - exists q, t. auto.
  - destruct (IH H) as (r0 & t' & H1 & H2). exists r0, t'. tauto.
Qed.

Lemma in_firstn {A} n (l : list A) x : In x (firstn n l) -> In x l.
Proof.
  intros H. rewrite <- (firstn_skipn n l). apply in_app_iff. left. exact H.
Qed.

Lemma py_slice_to_pos {A} (l : list A) (n : Z) :
  (0 <= n)%Z -> py_slice_to l n = firstn (Z.to_nat n) l.
Proof. intros H. unfold py_slice_to. destruct (Z.leb_spec 0 n); [reflexivity|lia]. Qed.

(** The requests the endpoint reports are at most ten, in decreasing
    timestamp order, each a copy (status "received") of one of the twenty
    newest logged requests whose timestamp parses to a datetime as
    timezone-aware as [now] and at most ten minutes older. *)
Theorem status_recent_requests (isoformat : datetime -> string)
    (fromisoformat : string -> option datetime) (now : datetime) (st : state) :
  exists resp,
    get_fer_service_status isoformat fromisoformat now st = (Ok resp, st) /\
    length (recent_requests_out resp) <= 10 /\
    Sorted ts_desc (recent_requests_out resp) /\
    Forall (fun r => exists r0 t,
              In r0 (firstn 20 (rev (items (recent_requests st)))) /\
              r = format_request r0 /\
              fromisoformat (replace_Z (rq_timestamp r0)) = Some t /\
              dt_aware t = dt_aware now /\
              (dt_seconds now - 60 * 10 <= dt_seconds t)%Z)
      (recent_requests_out resp).
Proof.
  eexists. split; [reflexivity|]. simpl.
  unfold read_recent_requests, py_try, deque_list. cbv beta iota zeta. cbn [fst snd].
  rewrite !(py_slice_to_pos _ 10) by lia. rewrite (py_slice_to_pos _ 20) by lia.
  split; [rewrite length_firstn; lia|]. split.
  - apply firstn_sorted, sort_desc_sorted.
  - apply Forall_forall. intros r Hr.
    rewrite list_elem_of_In in Hr. apply in_firstn in Hr. eapply Permutation_in in Hr; [|apply sort_desc_perm].
    apply filter_recent_in in Hr. exact Hr.
Qed.

Lemma head_rev_last {A} (l : list A) : head (rev l) = last l.
Proof.
  induction l as [|x l _] using rev_ind; [reflexivity|].
  rewrite rev_unit, last_snoc. reflexivity.
Qed.

(** The results the endpoint reports are the ten newest logged results,
    newest first, and [last_successful_result] is the newest logged result
    whatever its [db_write_success]; the status is always "healthy" and
    the trackers are left as they are. *)
Theorem status_last_result (isoformat : datetime -> string)
    (fromisoformat : string -> option datetime) (now : datetime) (st : state) :
  exists resp,
    get_fer_service_status isoformat fromisoformat now st = (Ok resp, st) /\
    status resp = "healthy" /\
    recent_results_out resp = map format_result (firstn 10 (rev (items (recent_results st)))) /\
    last_successful_result resp = option_map format_result (last (items (recent_results st))).
Proof.
  eexists. split; [reflexivity|]. simpl.
  unfold read_recent_results, py_try, deque_list. cbv beta iota zeta. cbn [fst snd].
  rewrite !py_slice_to_pos by lia.
  split; [reflexivity|]. split.
  - rewrite firstn_map, firstn_firstn. reflexivity.
  - rewrite <- head_rev_last. simpl.
    destruct (rev (items (recent_results st))); reflexivity.
Qed.

End MainStatusProofs.

(* ------------------------------------------------------------------ *)
(** ** [fer_model.predict_emotion] *)

Module FerModelProofs.
Import FerModel.

(** The scan of [np.argmax] from an already-scanned prefix [pre ++ b :: mid]
    whose first maximum is [b]. *)
Lemma argmax_go_spec (r : list box) : forall pre b mid,
  Forall (fun x => (conf x < conf b)%Q) pre ->
  Forall (fun x => (conf x <= conf b)%Q) mid ->
  exists pre' b' post',
    pre ++ b :: mid ++ r = pre' ++ b' :: post' /\
    argmax_go (map conf r) (length (pre ++ b :: mid)) (length pre) (conf b) =
      length pre' /\
    Forall (fun x => (conf x < conf b')%Q) pre' /\
    Forall (fun x => (conf x <= conf b')%Q) post'.
Proof.
  induction r as [|x r IH]; intros pre b mid Hpre Hmid.
  - exists pre, b, mid. rewrite app_nil_r. auto.
  - simpl. destruct (Qlt_le_dec (conf b) (conf x)) as [Hlt|Hle].
    + destruct (IH (pre ++ b :: mid) x []) as (pre' & b' & post' & H1 & H2 & H3 & H4).
      * apply Forall_app. split.
        -- eapply Forall_impl; [exact Hpre|]. intros y Hy. exact (Qlt_trans _ _ _ Hy Hlt).
        -- constructor; [exact Hlt|]. eapply Forall_impl; [exact Hmid|].
           intros y Hy. exact (Qle_lt_trans _ _ _ Hy Hlt).
      * constructor.
      * exists pre', b', post'. split; [rewrite <- H1, <- app_assoc; reflexivity|].
        split; [|auto]. rewrite <- H2. f_equal.
        rewrite !length_app. simpl. lia.
    + destruct (IH pre b (mid ++ [x])) as (pre' & b' & post' & H1 & H2 & H3 & H4).
      * exact Hpre.
      * apply Forall_app. split; [exact Hmid|]. constructor; [exact Hle|constructor].
      * exists pre', b', post'. split; [rewrite <- H1, <- app_assoc; reflexivity|].
        split; [|auto]. rewrite <- H2. f_equal.
        rewrite !length_app. simpl. rewrite length_app. simpl. lia.
Qed.

(** [np.argmax] picks the first box of maximal confidence. *)
Lemma argmax_first_max (boxes : list box) :
  boxes <> [] ->
  exists pre b post,
    boxes = pre ++ b :: post /\ argmax (map conf boxes) = length pre /\
    Forall (fun x => (conf x < conf b)%Q) pre /\
    Forall (fun x => (conf x <= conf b)%Q) post.
Proof.
  destruct boxes as [|b0 r]; [congruence|]. intros _.
  destruct (argmax_go_spec r [] b0 [] ltac:(constructor) ltac:(constructor))
    as (pre & b & post & H1 & H2 & H3 & H4).
  exists pre, b, post. simpl in *. auto.
Qed.

Lemma emotion_class_range i :
  In (emotion_class i) ["angry"; "fear"; "happy"; "neutral"; "sad"; "unknown"].
Proof.
  unfold emotion_class.
  destruct (i =? 0)%Z; [simpl; tauto|].
  destruct (i =? 1)%Z; [simpl; tauto|].
  destruct (i =? 2)%Z; [simpl; tauto|].
  destruct (i =? 3)%Z; [simpl; tauto|].
  destruct (i =? 4)%Z; simpl; tauto.
Qed.

Section Predict.
Variable image : Type.
Variable single_channel : image -> bool.
Variable gray2bgr : image -> image.
Variable model : image -> list (option (list box)).
Variable round2 : Q -> Q.

(** The image the model sees. *)
Definition model_input (img : image) : image :=
  if single_channel img then gray2bgr img else img.

(** Without a detection (no result, no boxes, or an empty box list) the
    prediction is [("none", 0.0)] and no file is written. *)
Theorem predict_emotion_no_detection (img : image) (files : list string) :
  (model (model_input img) = [] \/
   (exists rest, model (model_input img) = None :: rest) \/
   (exists rest, model (model_input img) = Some [] :: rest)) ->
  predict_emotion image single_channel gray2bgr model round2 img files =
  (Ok none_prediction, files).
Proof.
  unfold predict_emotion, model_input.
  intros [H|[[rest H]|[rest H]]]; rewrite H; reflexivity.
Qed.

(** With a detection the prediction is the class name (or "unknown",
    never "none") and the rounded confidence of the first box of maximal
    confidence, and the annotated image is written once. *)
Theorem predict_emotion_detection (img : image) (files : list string)
    (boxes : list box) (rest : list (option (list box))) :
  model (model_input img) = Some boxes :: rest ->
  boxes <> [] ->
  exists pre b post,
    boxes = pre ++ b :: post /\
    Forall (fun x => (conf x < conf b)%Q) pre /\
    Forall (fun x => (conf x <= conf b)%Q) post /\
    predict_emotion image single_channel gray2bgr model round2 img files =
      (Ok {| Main.emotion := emotion_class (cls b);
             Main.confidence := round2 (conf b) |},
       files ++ [annotated_path]) /\
    In (emotion_class (cls b)) ["angry"; "fear"; "happy"; "neutral"; "sad"; "unknown"].
Proof.
  intros Hm Hne.
  destruct (argmax_first_max boxes Hne) as (pre & b & post & Hb & Harg & Hpre & Hpost).
  exists pre, b, post. split; [exact Hb|]. split; [exact Hpre|]. split; [exact Hpost|].
  split; [|apply emotion_class_range].
  unfold predict_emotion. unfold model_input in Hm. rewrite Hm.
  destruct boxes as [|b0 bs]; [congruence|].
  cbv zeta. rewrite Harg, Hb, !map_app. simpl.
  rewrite <- (length_map cls pre), nth_middle.
  rewrite length_map, <- (length_map conf pre), nth_middle.
  reflexivity.
Qed.

End Predict.

(** A three-box model with a tie at the maximum, to run [predict_emotion] on. *)
Definition model_sample (_ : unit) : list (option (list box)) :=
  [Some [{| conf := 3 # 10; cls := 4 |}; {| conf := 9 # 10; cls := 2 |};
         {| conf := 9 # 10; cls := 0 |}]].

Lemma predict_emotion_no_detection_witness :
  predict_emotion unit (fun _ => false) (fun i => i) (fun _ => []) (fun q => q) tt [] =
  (Ok none_prediction, []).
Proof.
  apply (predict_emotion_no_detection unit (fun _ => false) (fun i => i)
           (fun _ => []) (fun q => q) tt []).
  left. reflexivity.
Defined.

Lemma predict_emotion_detection_witness :
  exists pre b post,
    [{| conf := 3 # 10; cls := 4 |}; {| conf := 9 # 10; cls := 2 |};
     {| conf := 9 # 10; cls := 0 |}] = pre ++ b :: post /\
    Forall (fun x => (conf x < conf b)%Q) pre /\
    Forall (fun x => (conf x <= conf b)%Q) post /\
    predict_emotion unit (fun _ => false) (fun i => i) model_sample (fun q => q) tt [] =
      (Ok {| Main.emotion := emotion_class (cls b);
             Main.confidence := conf b |}, [] ++ [annotated_path]) /\
    In (emotion_class (cls b)) ["angry"; "fear"; "happy"; "neutral"; "sad"; "unknown"].
Proof.
  apply (predict_emotion_detection unit (fun _ => false) (fun i => i) model_sample
           (fun q => q) tt []
           [{| conf := 3 # 10; cls := 4 |}; {| conf := 9 # 10; cls := 2 |};
            {| conf := 9 # 10; cls := 0 |}] []).
  - reflexivity.
  - discriminate.
Defined.

End FerModelProofs.
